(** * Configuration resolution of op-stack-executor ([config.py])

    A shallow embedding of the [Config] singleton, of its readers
    ([load_from_env], [load_from_dotenv]), of the publisher
    ([setup_environment]), of the validator and of the two entry points
    [setup_config] and [ensure_configured].

    Modelling conventions.
    - A Python [str] is a [string]; a character is one 8-bit [ascii], read
      as the code point of the same number (the Latin-1 range).
    - [Optional[str]] is [option string]; Python truthiness of a string is
      "not empty", of an optional string "present and not empty".
    - [os.environ] is a [gmap string string].
    - The file system is a [gmap string string] from paths to the text of
      the regular files that exist, as the text layer of [open] delivers it
      (decoded, line ends already translated to line feeds).
    - The class attribute [Config._instance] and the lines written by
      [print] are fields of [World], next to the process environment.
    - Methods that mutate [self] and return it are functions
      [Config -> Config]. *)

From Stdlib Require Import Ascii String Bool Arith Lia.
From stdpp Require Import gmap strings list fin_maps.

(** ** Python string primitives *)

Module Py.

(** [str.isspace] on a single character with code below 256: the ASCII
    controls 9..13 and 28..31, the space, NEL (133) and NBSP (160). *)
Definition isspace (c : ascii) : bool :=
  let n := nat_of_ascii c in
  ((9 <=? n) && (n <=? 13)) || ((28 <=? n) && (n <=? 32))
  || (n =? 133) || (n =? 160).

(** The predicate "the character occurs in [chars]", as used by
    [str.strip(chars)]. *)
Fixpoint char_in (chars : string) (c : ascii) : bool :=
  match chars with
  | EmptyString => false
  | String d rest => Ascii.eqb c d || char_in rest c
  end.

Fixpoint lstrip (p : ascii -> bool) (s : string) : string :=
  match s with
  | EmptyString => EmptyString
  | String c s' => if p c then lstrip p s' else s
  end.

Fixpoint rstrip (p : ascii -> bool) (s : string) : string :=
  match s with
  | EmptyString => EmptyString
  | String c s' =>
      match rstrip p s' with
      | EmptyString => if p c then EmptyString else String c EmptyString
      | r => String c r
      end
  end.

(** [s.strip()] is [strip isspace s]; [s.strip(chars)] is
    [strip (char_in chars) s]. *)
Definition strip (p : ascii -> bool) (s : string) : string :=
  rstrip p (lstrip p s).

(** [s.startswith(c)] for a one-character prefix. *)
Definition startswith (c : ascii) (s : string) : bool :=
  match s with
  | String d _ => Ascii.eqb d c
  | EmptyString => false
  end.

(** [c in s] for a one-character needle. *)
Fixpoint contains (c : ascii) (s : string) : bool :=
  match s with
  | EmptyString => false
  | String d s' => Ascii.eqb d c || contains c s'
  end.

(** [s.split(sep, 1)] for a one-character separator: the text before the
    first separator and the text after it; [None] when there is no
    separator (Python then returns a one-element list). *)
Fixpoint split1 (sep : ascii) (s : string) : option (string * string) :=
  match s with
  | EmptyString => None
  | String c s' =>
      if Ascii.eqb c sep then Some (EmptyString, s')
      else match split1 sep s' with
           | Some (k, v) => Some (String c k, v)
           | None => None
           end
  end.

(** [str.lower] on characters below 256: A..Z and the Latin-1 capitals
    192..222 (but not the multiplication sign 215) move up by 32. *)
Definition lower_char (c : ascii) : ascii :=
  let n := nat_of_ascii c in
  if ((65 <=? n) && (n <=? 90))
     || ((192 <=? n) && (n <=? 222) && negb (n =? 215))
  then ascii_of_nat (n + 32) else c.

Fixpoint lower (s : string) : string :=
  match s with
  | EmptyString => EmptyString
  | String c s' => String (lower_char c) (lower s')
  end.

(** Truthiness of a [str] and of an [Optional[str]]. *)
Definition truthy (s : string) : bool := negb (String.eqb s "").

Definition opt_truthy (o : option string) : bool :=
  match o with
  | Some s => truthy s
  | None => false
  end.

(** [a or b] on optional strings: [a] when it is truthy, [b] otherwise. *)
Definition or_ (a b : option string) : option string :=
  if opt_truthy a then a else b.

(** The lines a text file yields when iterated: each one keeps its line
    feed, the last one may lack it. *)
Fixpoint file_lines (s : string) : list string :=
  match s with
  | EmptyString => []
  | String c s' =>
      if Ascii.eqb c "010" then String c EmptyString :: file_lines s'
      else match file_lines s' with
           | [] => [String c EmptyString]
           | l :: ls => String c l :: ls
           end
  end.

End Py.

(** ** The configuration object *)

Record Config := mkConfig {
  _aws_bedrock_api_key : option string;
  _model_id : string;
  _aws_region : string;
  _use_iam_role : bool
}.

(** [Config.__init__] on a fresh instance. *)
Definition init : Config :=
  {| _aws_bedrock_api_key := None;
     _model_id := "us.anthropic.claude-sonnet-4-20250514-v1:0";
     _aws_region := "us-east-1";
     _use_iam_role := false |}.

Definition set_api_key (api_key : string) (c : Config) : Config :=
  {| _aws_bedrock_api_key := Some api_key;
     _model_id := _model_id c;
     _aws_region := _aws_region c;
     _use_iam_role := _use_iam_role c |}.

Definition set_model_id (model_id : string) (c : Config) : Config :=
  {| _aws_bedrock_api_key := _aws_bedrock_api_key c;
     _model_id := model_id;
     _aws_region := _aws_region c;
     _use_iam_role := _use_iam_role c |}.

Definition set_aws_region (region : string) (c : Config) : Config :=
  {| _aws_bedrock_api_key := _aws_bedrock_api_key c;
     _model_id := _model_id c;
     _aws_region := region;
     _use_iam_role := _use_iam_role c |}.

Definition set_use_iam_role (use_iam : bool) (c : Config) : Config :=
  {| _aws_bedrock_api_key := _aws_bedrock_api_key c;
     _model_id := _model_id c;
     _aws_region := _aws_region c;
     _use_iam_role := use_iam |}.

(** The membership test [v.lower() in ('true', '1', 'yes')]. *)
Definition flag_is_true (v : string) : bool :=
  let l := Py.lower v in
  String.eqb l "true" || String.eqb l "1" || String.eqb l "yes".

(** [Config.load_from_env]. The credential is assigned whatever
    [os.environ.get] returns, [None] included; the other three fields are
    assigned under a truthiness guard. *)
Definition load_from_env (env : gmap string string) (c : Config) : Config :=
  let c1 :=
    {| _aws_bedrock_api_key := env !! "AWS_BEDROCK_API_KEY";
       _model_id := _model_id c;
       _aws_region := _aws_region c;
       _use_iam_role := _use_iam_role c |} in
  let c2 :=
    match env !! "AWS_BEDROCK_MODEL_ID" with
    | Some model_id => if Py.truthy model_id then set_model_id model_id c1 else c1
    | None => c1
    end in
  let c3 :=
    match Py.or_ (env !! "AWS_REGION") (env !! "AWS_DEFAULT_REGION") with
    | Some aws_region =>
        if Py.truthy aws_region then set_aws_region aws_region c2 else c2
    | None => c2
    end in
  let use_iam := flag_is_true (default "" (env !! "USE_IAM_ROLE")) in
  if use_iam then set_use_iam_role true c3 else c3.

(** The double quote (code 34) and the single quote (code 39). *)
Definition dquote : ascii := "034"%char.
Definition squote : ascii := "039"%char.

(** What the file reader makes of the text after the first [=]: a
    whitespace [strip()], then a [strip] of the double quote character,
    then a [strip] of the single quote character. *)
Definition dotenv_value (value : string) : string :=
  Py.strip (Py.char_in (String squote EmptyString))
    (Py.strip (Py.char_in (String dquote EmptyString))
       (Py.strip Py.isspace value)).

(** The assignment chain on a parsed [key], [value] pair. *)
Definition dotenv_assign (key value : string) (c : Config) : Config :=
  if String.eqb key "AWS_BEDROCK_API_KEY" then set_api_key value c
  else if String.eqb key "AWS_BEDROCK_MODEL_ID" then set_model_id value c
  else if String.eqb key "AWS_REGION" || String.eqb key "AWS_DEFAULT_REGION"
    then set_aws_region value c
  else if String.eqb key "USE_IAM_ROLE"
    then set_use_iam_role (flag_is_true value) c
  else c.

(** The key and value a line is parsed into, [None] when the line is
    skipped (blank, comment, or without [=]). *)
Definition dotenv_parse (line : string) : option (string * string) :=
  let line := Py.strip Py.isspace line in
  if Py.truthy line && negb (Py.startswith "#" line) then
    match Py.split1 "=" line with
    | Some (key, value) => Some (Py.strip Py.isspace key, dotenv_value value)
    | None => None
    end
  else None.

(** The body of the [for line in f] loop. *)
Definition dotenv_line (c : Config) (line : string) : Config :=
  match dotenv_parse line with
  | Some (key, value) => dotenv_assign key value c
  | None => c
  end.

(** [Config.load_from_dotenv]: nothing happens when the path does not
    exist. *)
Definition load_from_dotenv (fs : gmap string string) (dotenv_path : string)
    (c : Config) : Config :=
  match fs !! dotenv_path with
  | None => c
  | Some text => fold_left dotenv_line (Py.file_lines text) c
  end.

(** The property [Config.authentication_mode]; the test on the credential
    is Python truthiness, so an empty credential counts as none. *)
Definition authentication_mode (c : Config) : string :=
  if Py.opt_truthy (_aws_bedrock_api_key c) && negb (_use_iam_role c)
  then "api_key" else "iam_role".

(** [Config.is_configured]: here the credential is tested with
    [is not None]. *)
Definition is_configured (c : Config) : bool :=
  bool_decide (_aws_bedrock_api_key c ≠ None) || _use_iam_role c.

(** ** The process: singleton, environment, standard output *)

Record World := mkWorld {
  instance : option Config;
  environ : gmap string string;
  stdout : list string
}.

(** [get_config]: the singleton, created with the defaults on first
    access. *)
Definition get_config (w : World) : Config :=
  match instance w with
  | Some c => c
  | None => init
  end.

(** The environment after [Config.setup_environment]. *)
Definition publish_environ (c : Config) (env : gmap string string)
    : gmap string string :=
  let env1 :=
    if Py.truthy (_model_id c)
    then <["AWS_BEDROCK_MODEL_ID" := _model_id c]> env else env in
  let env2 :=
    if Py.truthy (_aws_region c) then
      let e := <["AWS_REGION" := _aws_region c]> env1 in
      match e !! "AWS_DEFAULT_REGION" with
      | None => <["AWS_DEFAULT_REGION" := _aws_region c]> e
      | Some _ => e
      end
    else env1 in
  if String.eqb (authentication_mode c) "api_key" then
    match _aws_bedrock_api_key c with
    | Some k => if Py.truthy k then <["AWS_BEDROCK_API_KEY" := k]> env2 else env2
    | None => env2
    end
  else delete "AWS_BEDROCK_API_KEY" env2.

(** The lines [Config.setup_environment] prints. *)
Definition publish_notice (c : Config) : list string :=
  if String.eqb (authentication_mode c) "api_key" then
    if Py.opt_truthy (_aws_bedrock_api_key c)
    then ["✓ 认证模式: API Key 认证（本地开发模式）"] else []
  else ["✓ 认证模式: IAM Role 认证（AWS 部署模式）";
        "  AWS Region: " +:+ _aws_region c].

(** [Config.setup_environment], run on the singleton [c]. *)
Definition setup_environment (c : Config) (w : World) : World :=
  {| instance := instance w;
     environ := publish_environ c (environ w);
     stdout := stdout w ++ publish_notice c |}.

(** Both failures of the validator are [ValueError]s in the source, told
    apart by their message: the first asks for the API key, the second for
    the region. *)
Inductive ValueError := MissingCredentialError | MissingRegionError.

Inductive outcome (A : Type) :=
| Returns (a : A)
| Raises (e : ValueError).
Arguments Returns {A} a.
Arguments Raises {A} e.

(** [Config.validate]. *)
Definition validate (c : Config) : outcome unit :=
  if String.eqb (authentication_mode c) "api_key" then
    if negb (Py.opt_truthy (_aws_bedrock_api_key c))
    then Raises MissingCredentialError else Returns tt
  else
    if negb (Py.truthy (_aws_region c))
    then Raises MissingRegionError else Returns tt.

(** ** Entry points *)

(** The managed-runtime test
    [os.environ.get('AWS_EXECUTION_ENV') or os.environ.get('AWS_LAMBDA_FUNCTION_NAME')]. *)
Definition in_lambda (env : gmap string string) : bool :=
  Py.opt_truthy
    (Py.or_ (env !! "AWS_EXECUTION_ENV") (env !! "AWS_LAMBDA_FUNCTION_NAME")).

(** [setup_config], the two reader calls. *)
Definition setup_config_load (use_dotenv use_env : bool)
    (fs : gmap string string) (env : gmap string string) (c : Config) : Config :=
  let c1 := if use_dotenv then load_from_dotenv fs ".env" c else c in
  if use_env then load_from_env env c1 else c1.

(** [setup_config], the explicit arguments: the three strings under a
    truthiness guard, the flag under [is not None]. *)
Definition setup_config_explicit (api_key model_id aws_region : option string)
    (use_iam_role : option bool) (c : Config) : Config :=
  let c1 := match api_key with
            | Some k => if Py.truthy k then set_api_key k c else c
            | None => c
            end in
  let c2 := match model_id with
            | Some m => if Py.truthy m then set_model_id m c1 else c1
            | None => c1
            end in
  let c3 := match aws_region with
            | Some r => if Py.truthy r then set_aws_region r c2 else c2
            | None => c2
            end in
  match use_iam_role with
  | Some b => set_use_iam_role b c3
  | None => c3
  end.

(** [setup_config], the automatic switch to role mode. *)
Definition setup_config_detect (env : gmap string string) (c : Config) : Config :=
  if negb (Py.opt_truthy (_aws_bedrock_api_key c)) && negb (_use_iam_role c)
  then if in_lambda env then set_use_iam_role true c else c
  else c.

(** The configuration [setup_config] returns. *)
Definition setup_config_result (api_key model_id aws_region : option string)
    (use_iam_role : option bool) (use_dotenv use_env : bool)
    (fs : gmap string string) (w : World) : Config :=
  setup_config_detect (environ w)
    (setup_config_explicit api_key model_id aws_region use_iam_role
       (setup_config_load use_dotenv use_env fs (environ w) (get_config w))).

(** [setup_config]: the returned configuration is the singleton. *)
Definition setup_config (api_key model_id aws_region : option string)
    (use_iam_role : option bool) (use_dotenv use_env : bool)
    (fs : gmap string string) (w : World) : Config * World :=
  let c :=
    setup_config_result api_key model_id aws_region use_iam_role
      use_dotenv use_env fs w in
  (c, setup_environment c
        {| instance := Some c; environ := environ w; stdout := stdout w |}).

(** [ensure_configured]. The singleton keeps what the readers did to it
    also when the validator raises. *)
Definition ensure_configured (fs : gmap string string) (w : World)
    : outcome Config * World :=
  let config := get_config w in
  let w0 := {| instance := Some config; environ := environ w; stdout := stdout w |} in
  let '(config, w1) :=
    if negb (is_configured config) then
      let c1 := load_from_env (environ w) (load_from_dotenv fs ".env" config) in
      let c2 :=
        if negb (is_configured c1)
        then if in_lambda (environ w) then set_use_iam_role true c1 else c1
        else c1 in
      (c2, setup_environment c2
             {| instance := Some c2; environ := environ w; stdout := stdout w |})
    else (config, w0) in
  match validate config with
  | Raises e => (Raises e, w1)
  | Returns _ => (Returns config, w1)
  end.

(** ** Vocabulary of the statements *)

(** The keys the file reader acts on. *)
Definition recognized_keys : list string :=
  ["AWS_BEDROCK_API_KEY"; "AWS_BEDROCK_MODEL_ID"; "AWS_REGION";
   "AWS_DEFAULT_REGION"; "USE_IAM_ROLE"].

(** The lines of the file at [path], none when there is no such file. *)
Definition dotenv_file_lines (fs : gmap string string) (path : string)
    : list string :=
  match fs !! path with
  | Some text => Py.file_lines text
  | None => []
  end.

(** The value a file supplies for a field whose keys are [keys]: that of
    the last line that parses to one of these keys. *)
Fixpoint dotenv_lookup (keys : list string) (lines : list string)
    : option string :=
  match lines with
  | [] => None
  | line :: rest =>
      match dotenv_lookup keys rest with
      | Some v => Some v
      | None =>
          match dotenv_parse line with
          | Some (k, v) => if bool_decide (k ∈ keys) then Some v else None
          | None => None
          end
      end
  end.

(** The invariant of the data model: neither the model identifier nor the
    region is the empty string. *)
Definition fields_nonempty (c : Config) : Prop :=
  _model_id c ≠ "" ∧ _aws_region c ≠ "".

(** The file keeps both fields non-empty: its last model identifier and
    its last region, when it has any, are not empty. *)
Definition dotenv_keeps_nonempty (fs : gmap string string) (path : string)
    : Prop :=
  dotenv_lookup ["AWS_BEDROCK_MODEL_ID"] (dotenv_file_lines fs path) ≠ Some ""
  ∧ dotenv_lookup ["AWS_REGION"; "AWS_DEFAULT_REGION"]
      (dotenv_file_lines fs path) ≠ Some "".

(** "What the environment says, else what the file says, else what was
    there". *)
Definition precedence {A : Type} (from_env from_file : option A) (dflt : A) : A :=
  match from_env with
  | Some v => v
  | None => default dflt from_file
  end.

(** The value of an environment variable that is set and not empty. *)
Definition env_nonempty (env : gmap string string) (k : string)
    : option string :=
  match env !! k with
  | Some v => if Py.truthy v then Some v else None
  | None => None
  end.

(** The region the environment supplies: the primary variable, else the
    fallback. *)
Definition env_region (env : gmap string string) : option string :=
  match env_nonempty env "AWS_REGION" with
  | Some v => Some v
  | None => env_nonempty env "AWS_DEFAULT_REGION"
  end.

(** The flag the environment supplies: on for one of the three words,
    nothing otherwise. *)
Definition env_flag (env : gmap string string) : option bool :=
  match env !! "USE_IAM_ROLE" with
  | Some v => if flag_is_true v then Some true else None
  | None => None
  end.

(** Removal of the last character when it is [q]. *)
Fixpoint chop_last (q : ascii) (s : string) : option string :=
  match s with
  | EmptyString => None
  | String c s' =>
      match s' with
      | EmptyString => if Ascii.eqb c q then Some EmptyString else None
      | _ => option_map (String c) (chop_last q s')
      end
  end.

(** The text inside one pair of [q] characters around [s], when [s] begins
    and ends with one. *)
Definition unwrap (q : ascii) (s : string) : option string :=
  match s with
  | String c s' => if Ascii.eqb c q then chop_last q s' else None
  | EmptyString => None
  end.

(** The value rule in the words of the specification: trim, then take off
    one layer of matching double quotes or of matching single quotes if
    there is one, and leave everything else as it is. *)
Definition spec_dotenv_value (value : string) : string :=
  let v := Py.strip Py.isspace value in
  match unwrap dquote v with
  | Some inner => inner
  | None =>
      match unwrap squote v with
      | Some inner => inner
      | None => v
      end
  end.

(** Every character of [s] satisfies [p]. *)
Fixpoint all_chars (p : ascii → bool) (s : string) : bool :=
  match s with
  | EmptyString => true
  | String c s' => p c && all_chars p s'
  end.

(** [s] does not begin with a character of [p]. *)
Definition head_ok (p : ascii → bool) (s : string) : bool :=
  match s with
  | EmptyString => true
  | String c _ => negb (p c)
  end.

(** [s] does not end with a character of [p]. *)
Fixpoint last_ok (p : ascii → bool) (s : string) : bool :=
  match s with
  | EmptyString => true
  | String c s' =>
      match s' with
      | EmptyString => negb (p c)
      | _ => last_ok p s'
      end
  end.

Definition is_dquote : ascii → bool := Py.char_in (String dquote EmptyString).
Definition is_squote : ascii → bool := Py.char_in (String squote EmptyString).

(** The characters the value rule can take off an end. *)
Definition strippable (c : ascii) : bool :=
  Py.isspace c || is_dquote c || is_squote c.

(** ** Basic facts *)

Lemma truthy_true (s : string) : Py.truthy s = true ↔ s ≠ "".
Proof.
  unfold Py.truthy. destruct (String.eqb_spec s ""); simpl; split; congruence.
Qed.

Lemma truthy_false (s : string) : Py.truthy s = false ↔ s = "".
Proof.
  unfold Py.truthy. destruct (String.eqb_spec s ""); simpl; split; congruence.
Qed.

Lemma opt_truthy_true (o : option string) :
  Py.opt_truthy o = true ↔ ∃ k, o = Some k ∧ k ≠ "".
Proof.
  destruct o as [k|]; simpl.
  - rewrite truthy_true. split.
    + intros H. exists k. auto.
    + intros (k' & Hk & Hne). congruence.
  - split; [discriminate | intros (k & Hk & _); discriminate].
Qed.

Lemma authentication_mode_cases (c : Config) :
  authentication_mode c = "api_key" ∨ authentication_mode c = "iam_role".
Proof.
  unfold authentication_mode.
  destruct (Py.opt_truthy _ && negb _); [left | right]; reflexivity.
Qed.

Lemma authentication_mode_api_key (c : Config) :
  authentication_mode c = "api_key" ↔
  Py.opt_truthy (_aws_bedrock_api_key c) = true ∧ _use_iam_role c = false.
Proof.
  unfold authentication_mode.
  destruct (Py.opt_truthy _), (_use_iam_role c); simpl;
    split; try discriminate; intuition congruence.
Qed.

(** ** The mode inferrer *)

(** C1, as stated, fails: with the empty string as credential (set by the
    setter, by an empty environment variable or by an empty file entry) and
    the role flag off, the credential is present and the mode is still
    [iam_role]. *)
Lemma authentication_mode_empty_credential :
  let c := set_api_key "" init in
  ¬ (authentication_mode c = "api_key" ↔
     _aws_bedrock_api_key c ≠ None ∧ _use_iam_role c = false).
Proof.
  simpl. intros [_ H].
  assert (Hm : authentication_mode (set_api_key "" init) = "api_key")
    by (apply H; split; [discriminate | reflexivity]).
  vm_compute in Hm. discriminate.
Qed.

(** C1, amended: the mode is [api_key] exactly when the credential is
    present, not the empty string, and the role flag is off; it is
    [iam_role] in every other state, and so whenever the role flag is on,
    whatever the credential. *)
Theorem authentication_mode_spec (c : Config) :
  (authentication_mode c = "api_key" ↔
     (∃ k, _aws_bedrock_api_key c = Some k ∧ k ≠ "") ∧ _use_iam_role c = false)
  ∧ (authentication_mode c ≠ "api_key" ↔ authentication_mode c = "iam_role")
  ∧ (_use_iam_role c = true → authentication_mode c = "iam_role").
Proof.
  split; [| split].
  - rewrite authentication_mode_api_key, opt_truthy_true. reflexivity.
  - destruct (authentication_mode_cases c) as [H | H]; rewrite H;
      split; intros; congruence.
  - intros Hr. destruct (authentication_mode_cases c) as [H | H]; [| exact H].
    apply authentication_mode_api_key in H. destruct H; congruence.
Qed.

Lemma authentication_mode_spec_witness :
  authentication_mode (set_use_iam_role true (set_api_key "k" init)) = "iam_role".
Proof.
  apply (authentication_mode_spec (set_use_iam_role true (set_api_key "k" init))).
  reflexivity.
Defined.

(** ** The validator and the operations that cannot fail *)

Lemma validate_cases (c : Config) :
  validate c = Returns tt ∨ validate c = Raises MissingRegionError.
Proof.
  unfold validate.
  destruct (String.eqb_spec (authentication_mode c) "api_key") as [Hm | Hm].
  - apply authentication_mode_api_key in Hm. destruct Hm as [Hk _].
    rewrite Hk. left. reflexivity.
  - destruct (Py.truthy (_aws_region c)); [left | right]; reflexivity.
Qed.

(** The credential branch of the validator is dead code: in [api_key] mode
    the credential is truthy. *)
Lemma validate_never_missing_credential (c : Config) :
  validate c ≠ Raises MissingCredentialError.
Proof.
  destruct (validate_cases c) as [H | H]; rewrite H; discriminate.
Qed.

Lemma validate_missing_region (c : Config) :
  validate c = Raises MissingRegionError ↔
  authentication_mode c = "iam_role" ∧ _aws_region c = "".
Proof.
  unfold validate.
  destruct (String.eqb_spec (authentication_mode c) "api_key") as [Hm | Hm].
  - rewrite Hm. destruct (negb _); split; try discriminate;
      intros [? _]; discriminate.
  - destruct (authentication_mode_cases c) as [Hc | Hc]; [contradiction |].
    destruct (Py.truthy (_aws_region c)) eqn:Ht; simpl.
    + apply truthy_true in Ht. split; [discriminate | intros [_ ?]; contradiction].
    + apply truthy_false in Ht. split; auto.
Qed.

Lemma dotenv_parse_no_equals (line : string) :
  Py.split1 "=" (Py.strip Py.isspace line) = None → dotenv_parse line = None.
Proof.
  intros H. unfold dotenv_parse. rewrite H.
  destruct (_ && _); reflexivity.
Qed.

Lemma split1_contains (sep : ascii) (s : string) :
  Py.contains sep s = false ↔ Py.split1 sep s = None.
Proof.
  induction s as [| c s IH]; simpl; [tauto |].
  destruct (Ascii.eqb c sep); simpl.
  - split; discriminate.
  - rewrite IH. destruct (Py.split1 sep s) as [[k v] |]; split;
      congruence.
Qed.

Lemma dotenv_assign_unrecognized (key value : string) (c : Config) :
  key ∉ recognized_keys → dotenv_assign key value c = c.
Proof.
  intros Hk. unfold dotenv_assign.
  repeat match goal with
  | |- context [String.eqb key ?k] =>
      destruct (String.eqb_spec key k) as [-> | _];
      [exfalso; apply Hk; unfold recognized_keys; set_solver |]
  end.
  reflexivity.
Qed.

Lemma ensure_configured_instance (fs : gmap string string) (w : World) :
  ∃ c, instance (ensure_configured fs w).2 = Some c ∧
       (ensure_configured fs w).1 =
         match validate c with
         | Raises e => Raises e
         | Returns _ => Returns c
         end.
Proof.
  unfold ensure_configured.
  destruct (negb (is_configured (get_config w))).
  - match goal with
    | |- context [setup_environment ?c _] => exists c
    end.
    destruct (validate _); split; reflexivity.
  - exists (get_config w). destruct (validate _); split; reflexivity.
Qed.

(** C4: the validator raises the credential error exactly in [api_key]
    mode with an absent credential (a state that does not exist, so it
    never does), the region error exactly in [iam_role] mode with an empty
    region, and returns otherwise. The file reader does not fail: an absent
    file, a line without [=] and a line with an unrecognized key leave the
    configuration as it is; and [ensure_configured] raises only what the
    validator raises on the singleton. *)
Theorem validate_errors_and_silent_reader :
  (∀ c, validate c = Raises MissingCredentialError ↔
        authentication_mode c = "api_key" ∧ _aws_bedrock_api_key c = None)
  ∧ (∀ c, validate c = Raises MissingRegionError ↔
          authentication_mode c = "iam_role" ∧ _aws_region c = "")
  ∧ (∀ c, validate c = Returns tt ↔
          ¬ (authentication_mode c = "api_key" ∧ _aws_bedrock_api_key c = None)
          ∧ ¬ (authentication_mode c = "iam_role" ∧ _aws_region c = ""))
  ∧ (∀ fs path c, fs !! path = None → load_from_dotenv fs path c = c)
  ∧ (∀ c line, Py.contains "=" (Py.strip Py.isspace line) = false →
               dotenv_line c line = c)
  ∧ (∀ c line key value, dotenv_parse line = Some (key, value) →
               key ∉ recognized_keys → dotenv_line c line = c)
  ∧ (∀ fs w e, (ensure_configured fs w).1 = Raises e →
               ∃ c, instance (ensure_configured fs w).2 = Some c
                    ∧ validate c = Raises e).
Proof.
  assert (Hnone : ∀ c, ¬ (authentication_mode c = "api_key"
                          ∧ _aws_bedrock_api_key c = None)).
  { intros c [Hm Hk]. apply authentication_mode_api_key in Hm.
    destruct Hm as [Ht _]. rewrite Hk in Ht. discriminate. }
  split; [| split; [| split; [| split; [| split; [| split]]]]].
  - intros c. split.
    + intros Hv. exfalso. exact (validate_never_missing_credential c Hv).
    + intros Hv. exfalso. exact (Hnone c Hv).
  - apply validate_missing_region.
  - intros c. split.
    + intros Hv. split; [apply Hnone |].
      intros Hr. apply validate_missing_region in Hr. congruence.
    + intros [_ Hr]. destruct (validate_cases c) as [Hv | Hv]; [exact Hv |].
      apply validate_missing_region in Hv. contradiction.
  - intros fs path c H. unfold load_from_dotenv. rewrite H. reflexivity.
  - intros c line H. unfold dotenv_line.
    rewrite dotenv_parse_no_equals; [reflexivity |].
    apply split1_contains. exact H.
  - intros c line key value Hp Hk. unfold dotenv_line. rewrite Hp.
    apply dotenv_assign_unrecognized. exact Hk.
  - intros fs w e He.
    destruct (ensure_configured_instance fs w) as (c & Hi & Hr).
    exists c. split; [exact Hi |].
    rewrite Hr in He. destruct (validate c) as [[] | e']; congruence.
Qed.

Lemma validate_errors_and_silent_reader_witness :
  validate (set_aws_region "" init) = Raises MissingRegionError
  ∧ load_from_dotenv ∅ ".env" init = init
  ∧ dotenv_line init "not an assignment" = init
  ∧ dotenv_line init "COLOR=blue" = init.
Proof.
  destruct validate_errors_and_silent_reader
    as (_ & Hreg & _ & Habs & Hmal & Hunk & _).
  split; [| split; [| split]].
  - apply Hreg. split; reflexivity.
  - apply Habs. reflexivity.
  - apply Hmal. reflexivity.
  - apply (Hunk init "COLOR=blue" "COLOR" "blue"); [reflexivity |].
    unfold recognized_keys. intros H.
    repeat (apply elem_of_cons in H; destruct H as [H | H]; [discriminate |]).
    inversion H.
Defined.

(** ** The publisher *)

(** What the publisher leaves under each variable. *)
Lemma publish_environ_lookup (c : Config) (env : gmap string string) (k : string) :
  publish_environ c env !! k =
    if decide (k = "AWS_BEDROCK_API_KEY") then
      if String.eqb (authentication_mode c) "api_key"
      then _aws_bedrock_api_key c else None
    else if decide (k = "AWS_BEDROCK_MODEL_ID") then
      if Py.truthy (_model_id c) then Some (_model_id c) else env !! k
    else if decide (k = "AWS_REGION") then
      if Py.truthy (_aws_region c) then Some (_aws_region c) else env !! k
    else if decide (k = "AWS_DEFAULT_REGION") then
      match env !! k with
      | Some v => Some v
      | None => if Py.truthy (_aws_region c) then Some (_aws_region c) else None
      end
    else env !! k.
Proof.
  unfold publish_environ.
  destruct (String.eqb_spec (authentication_mode c) "api_key") as [Hm | Hm].
  - apply authentication_mode_api_key in Hm. destruct Hm as [Hk _].
    destruct (_aws_bedrock_api_key c) as [key |]; [| discriminate].
    simpl in Hk. rewrite Hk.
    destruct (Py.truthy (_model_id c)), (Py.truthy (_aws_region c));
      repeat case_decide; subst; simplify_map_eq; try reflexivity;
      destruct (env !! "AWS_DEFAULT_REGION") eqn:Hd; simplify_map_eq;
      reflexivity.
  - destruct (Py.truthy (_model_id c)), (Py.truthy (_aws_region c));
      repeat case_decide; subst; simplify_map_eq; try reflexivity;
      destruct (env !! "AWS_DEFAULT_REGION") eqn:Hd; simplify_map_eq;
      reflexivity.
Qed.

(** C9: publishing twice leaves the process environment as publishing once
    does, for every configuration and every starting environment. *)
Theorem setup_environment_idempotent (c : Config) (w : World) :
  environ (setup_environment c (setup_environment c w))
  = environ (setup_environment c w).
Proof.
  simpl. apply map_eq. intros k.
  rewrite !publish_environ_lookup.
  repeat case_decide; try reflexivity.
  - destruct (Py.truthy (_model_id c)); reflexivity.
  - destruct (Py.truthy (_aws_region c)); reflexivity.
  - subst k. destruct (environ w !! "AWS_DEFAULT_REGION") as [v |];
      [reflexivity |].
    destruct (Py.truthy (_aws_region c)); reflexivity.
Qed.

(** ** [ensure_configured] on a configured singleton *)

(** C10: when the singleton is configured on entry (a credential is
    present, or the role flag is on), [ensure_configured] reads neither the
    file nor the environment, detects nothing and publishes nothing: the
    singleton, the process environment and the standard output are as
    before, and the result is the validator's verdict on that singleton. *)
Theorem ensure_configured_frame (fs : gmap string string) (w : World) :
  is_configured (get_config w) = true →
  ensure_configured fs w =
    (match validate (get_config w) with
     | Raises e => Raises e
     | Returns _ => Returns (get_config w)
     end, w).
Proof.
  intros Hc. unfold ensure_configured. rewrite Hc. simpl.
  assert (Hw : {| instance := Some (get_config w); environ := environ w;
                  stdout := stdout w |} = w).
  { destruct w as [[c |] env out]; simpl in *; [reflexivity |].
    vm_compute in Hc. discriminate. }
  rewrite Hw. destruct (validate (get_config w)); reflexivity.
Qed.

Lemma ensure_configured_frame_witness :
  let w := {| instance := Some (set_api_key "k" init);
              environ := {[ "USE_IAM_ROLE" := "true";
                            "AWS_LAMBDA_FUNCTION_NAME" := "fn" ]};
              stdout := [] |} in
  let fs : gmap string string := {[ ".env" := "AWS_REGION=eu-west-1" ]} in
  ensure_configured fs w = (Returns (set_api_key "k" init), w).
Proof.
  exact (ensure_configured_frame
           {[ ".env" := "AWS_REGION=eu-west-1" ]}
           {| instance := Some (set_api_key "k" init);
              environ := {[ "USE_IAM_ROLE" := "true";
                            "AWS_LAMBDA_FUNCTION_NAME" := "fn" ]};
              stdout := [] |}
           eq_refl).
Defined.

(** ** [setup_config]: explicit arguments and automatic detection *)

Lemma setup_config_explicit_fields
    (api_key model_id aws_region : option string) (use_iam_role : option bool)
    (c : Config) :
  let r := setup_config_explicit api_key model_id aws_region use_iam_role c in
  _aws_bedrock_api_key r =
    (if Py.opt_truthy api_key then api_key else _aws_bedrock_api_key c)
  ∧ _model_id r = (if Py.opt_truthy model_id then default "" model_id else _model_id c)
  ∧ _aws_region r =
      (if Py.opt_truthy aws_region then default "" aws_region else _aws_region c)
  ∧ _use_iam_role r = default (_use_iam_role c) use_iam_role.
Proof.
  unfold setup_config_explicit. destruct c as [k0 m0 g0 f0].
  destruct api_key as [k |], model_id as [m |], aws_region as [g |],
    use_iam_role as [b |]; simpl;
    repeat match goal with
    | |- context [Py.truthy ?s] => destruct (Py.truthy s)
    end; simpl; repeat split; reflexivity.
Qed.

Lemma setup_config_detect_fields (env : gmap string string) (c : Config) :
  let r := setup_config_detect env c in
  _aws_bedrock_api_key r = _aws_bedrock_api_key c
  ∧ _model_id r = _model_id c
  ∧ _aws_region r = _aws_region c
  ∧ _use_iam_role r =
      (_use_iam_role c
       || (negb (Py.opt_truthy (_aws_bedrock_api_key c)) && in_lambda env)).
Proof.
  unfold setup_config_detect. destruct c as [k m g f]. simpl.
  destruct (Py.opt_truthy k), f, (in_lambda env); simpl;
    repeat split; reflexivity.
Qed.

(** C3, as stated, fails: inside a managed runtime, with no credential
    anywhere, an explicit [use_iam_role=False] comes back as [True]. The
    detection step tests the field, which does not remember whether its
    [False] was passed or is the default. *)
Lemma setup_config_detect_overrides_explicit_false :
  let w := {| instance := None;
              environ := {[ "AWS_LAMBDA_FUNCTION_NAME" := "test-function" ]};
              stdout := [] |} in
  _use_iam_role (setup_config None None None (Some false) true true ∅ w).1
  ≠ false.
Proof. vm_compute. discriminate. Qed.

(** C3, amended: with an explicit [use_iam_role=False] inside a managed
    runtime (a non-empty marker variable), the returned flag is [False]
    exactly when a non-empty credential was resolved, from the argument,
    the environment or the file; with none, detection turns the flag on. *)
Theorem setup_config_explicit_false
    (api_key model_id aws_region : option string) (use_dotenv use_env : bool)
    (fs : gmap string string) (w : World) :
  in_lambda (environ w) = true →
  let r := (setup_config api_key model_id aws_region (Some false)
              use_dotenv use_env fs w).1 in
  (_use_iam_role r = false ↔ ∃ k, _aws_bedrock_api_key r = Some k ∧ k ≠ "")
  ∧ (_use_iam_role r = true ↔ Py.opt_truthy (_aws_bedrock_api_key r) = false).
Proof.
  intros Hl. simpl. unfold setup_config_result.
  set (c := setup_config_load use_dotenv use_env fs (environ w) (get_config w)).
  set (e := setup_config_explicit api_key model_id aws_region (Some false) c).
  destruct (setup_config_detect_fields (environ w) e) as (Hk & _ & _ & Hf).
  destruct (setup_config_explicit_fields api_key model_id aws_region
              (Some false) c) as (_ & _ & _ & He).
  change (_use_iam_role e = false) in He. clearbody e.
  rewrite Hf, Hk, He, Hl. simpl.
  rewrite <- opt_truthy_true.
  destruct (Py.opt_truthy (_aws_bedrock_api_key e)); simpl;
    split; split; intros; congruence.
Qed.

Lemma setup_config_explicit_false_witness :
  let w := {| instance := None;
              environ := {[ "AWS_EXECUTION_ENV" := "AWS_Lambda_python3.12";
                            "AWS_BEDROCK_API_KEY" := "env-key" ]};
              stdout := [] |} in
  let r := (setup_config None None None (Some false) true true ∅ w).1 in
  _use_iam_role r = false ↔ ∃ k, _aws_bedrock_api_key r = Some k ∧ k ≠ "".
Proof.
  exact (proj1 (setup_config_explicit_false None None None true true ∅
           {| instance := None;
              environ := {[ "AWS_EXECUTION_ENV" := "AWS_Lambda_python3.12";
                            "AWS_BEDROCK_API_KEY" := "env-key" ]};
              stdout := [] |} eq_refl)).
Defined.

(** C5, as stated, fails: an explicit empty string does not overwrite. The
    credential loaded from the environment and the default model identifier
    survive explicit empty arguments. *)
Lemma setup_config_empty_argument_ignored :
  let w := {| instance := None;
              environ := {[ "AWS_BEDROCK_API_KEY" := "env-key" ]};
              stdout := [] |} in
  let r := (setup_config (Some "") (Some "") (Some "") None true true ∅ w).1 in
  _aws_bedrock_api_key r = Some "env-key"
  ∧ _aws_bedrock_api_key r ≠ Some ""
  ∧ _model_id r ≠ "" ∧ _aws_region r ≠ "".
Proof. vm_compute. repeat split; discriminate. Qed.

(** C5, amended: every explicit string argument that is not empty ends up
    in its field of the returned configuration, over whatever the
    environment and the file supplied; an empty string is handled like an
    absent argument; an explicit flag is written over the loaded one, after
    which detection can only turn it on, and does so exactly when no
    non-empty credential was resolved inside a managed runtime. *)
Theorem setup_config_explicit_wins
    (api_key model_id aws_region : option string) (use_iam_role : option bool)
    (use_dotenv use_env : bool) (fs : gmap string string) (w : World) :
  let r := (setup_config api_key model_id aws_region use_iam_role
              use_dotenv use_env fs w).1 in
  (∀ k, api_key = Some k → k ≠ "" → _aws_bedrock_api_key r = Some k)
  ∧ (∀ m, model_id = Some m → m ≠ "" → _model_id r = m)
  ∧ (∀ g, aws_region = Some g → g ≠ "" → _aws_region r = g)
  ∧ (∀ b, use_iam_role = Some b →
       _use_iam_role r =
         (b || (negb (Py.opt_truthy (_aws_bedrock_api_key r))
                && in_lambda (environ w))))
  ∧ (api_key = Some "" →
       r = (setup_config None model_id aws_region use_iam_role
              use_dotenv use_env fs w).1)
  ∧ (model_id = Some "" →
       r = (setup_config api_key None aws_region use_iam_role
              use_dotenv use_env fs w).1)
  ∧ (aws_region = Some "" →
       r = (setup_config api_key model_id None use_iam_role
              use_dotenv use_env fs w).1).
Proof.
  simpl. unfold setup_config_result.
  set (c := setup_config_load use_dotenv use_env fs (environ w) (get_config w)).
  set (e := setup_config_explicit api_key model_id aws_region use_iam_role c).
  destruct (setup_config_detect_fields (environ w) e) as (Hk & Hm & Hg & Hf).
  destruct (setup_config_explicit_fields api_key model_id aws_region
              use_iam_role c) as (Ek & Em & Eg & Ef).
  fold e in Ek, Em, Eg, Ef.
  split; [| split; [| split; [| split; [| split; [| split]]]]].
  - intros k -> Hne. rewrite Hk, Ek. simpl.
    apply truthy_true in Hne. rewrite Hne. reflexivity.
  - intros m -> Hne. rewrite Hm, Em. simpl.
    apply truthy_true in Hne. rewrite Hne. reflexivity.
  - intros g -> Hne. rewrite Hg, Eg. simpl.
    apply truthy_true in Hne. rewrite Hne. reflexivity.
  - intros b ->. rewrite Hf, Hk, Ef. reflexivity.
  - intros ->. reflexivity.
  - intros ->. reflexivity.
  - intros ->. reflexivity.
Qed.

Lemma setup_config_explicit_wins_witness :
  let w := {| instance := None;
              environ := {[ "AWS_BEDROCK_API_KEY" := "env-key";
                            "AWS_REGION" := "ap-northeast-1" ]};
              stdout := [] |} in
  let fs : gmap string string := {[ ".env" := "AWS_BEDROCK_MODEL_ID=file-model" ]} in
  let r := (setup_config (Some "priority-test-key") (Some "m") (Some "eu-west-1")
              (Some false) true true fs w).1 in
  _aws_bedrock_api_key r = Some "priority-test-key"
  ∧ _model_id r = "m" ∧ _aws_region r = "eu-west-1".
Proof.
  destruct (setup_config_explicit_wins
              (Some "priority-test-key") (Some "m") (Some "eu-west-1")
              (Some false) true true
              {[ ".env" := "AWS_BEDROCK_MODEL_ID=file-model" ]}
              {| instance := None;
                 environ := {[ "AWS_BEDROCK_API_KEY" := "env-key";
                               "AWS_REGION" := "ap-northeast-1" ]};
                 stdout := [] |}) as (Hk & Hm & Hg & _).
  split; [| split].
  - apply Hk; [reflexivity | discriminate].
  - apply Hm; [reflexivity | discriminate].
  - apply Hg; [reflexivity | discriminate].
Defined.

(** ** The file reader, field by field *)

Lemma load_from_dotenv_fold (fs : gmap string string) (path : string)
    (c : Config) :
  load_from_dotenv fs path c
  = fold_left dotenv_line (dotenv_file_lines fs path) c.
Proof.
  unfold load_from_dotenv, dotenv_file_lines.
  destruct (fs !! path); reflexivity.
Qed.

Ltac case_key key :=
  repeat match goal with
  | |- context [String.eqb key ?k] =>
      let E := fresh "Hkey" in
      destruct (String.eqb_spec key k) as [E | E]; [rewrite E in * |]
  end.

Ltac solve_key :=
  simpl; try reflexivity;
  repeat match goal with
  | |- context [bool_decide ?P] => destruct (bool_decide_reflect P)
  end;
  try reflexivity; exfalso;
  repeat match goal with
  | H : _ ∈ [] |- _ => inversion H
  | H : _ ∈ _ :: _ |- _ => apply elem_of_cons in H; destruct H as [H | H]
  | H : ¬ _ ∈ _ |- _ => apply H; repeat constructor
  end;
  congruence.

Lemma dotenv_assign_api_key (key value : string) (c : Config) :
  _aws_bedrock_api_key (dotenv_assign key value c) =
    if bool_decide (key ∈ ["AWS_BEDROCK_API_KEY"])
    then Some value else _aws_bedrock_api_key c.
Proof. unfold dotenv_assign. case_key key; solve_key. Qed.

Lemma dotenv_assign_model_id (key value : string) (c : Config) :
  _model_id (dotenv_assign key value c) =
    if bool_decide (key ∈ ["AWS_BEDROCK_MODEL_ID"])
    then value else _model_id c.
Proof. unfold dotenv_assign. case_key key; solve_key. Qed.

Lemma dotenv_assign_aws_region (key value : string) (c : Config) :
  _aws_region (dotenv_assign key value c) =
    if bool_decide (key ∈ ["AWS_REGION"; "AWS_DEFAULT_REGION"])
    then value else _aws_region c.
Proof. unfold dotenv_assign. case_key key; solve_key. Qed.

Lemma dotenv_assign_use_iam_role (key value : string) (c : Config) :
  _use_iam_role (dotenv_assign key value c) =
    if bool_decide (key ∈ ["USE_IAM_ROLE"])
    then flag_is_true value else _use_iam_role c.
Proof. unfold dotenv_assign. case_key key; solve_key. Qed.

Section FileFields.

(** A field of the configuration, how a file value is stored into it, and
    the keys that store into it. *)
Context {A : Type} (field : Config → A) (store : string → A)
  (keys : list string).
Hypothesis assign_field : ∀ key value c,
  field (dotenv_assign key value c) =
    if bool_decide (key ∈ keys) then store value else field c.

Lemma fold_dotenv_line_field (lines : list string) (c : Config) :
  field (fold_left dotenv_line lines c)
  = default (field c) (store <$> dotenv_lookup keys lines).
Proof.
  revert c. induction lines as [| line rest IH]; intros c; simpl.
  - reflexivity.
  - rewrite IH. destruct (dotenv_lookup keys rest) as [v |]; simpl.
    + reflexivity.
    + unfold dotenv_line.
      destruct (dotenv_parse line) as [[k v] |]; simpl; [| reflexivity].
      rewrite assign_field. destruct (bool_decide (k ∈ keys)); reflexivity.
Qed.

End FileFields.

Lemma load_from_dotenv_fields (fs : gmap string string) (path : string)
    (c : Config) :
  let lines := dotenv_file_lines fs path in
  let r := load_from_dotenv fs path c in
  _aws_bedrock_api_key r =
    default (_aws_bedrock_api_key c)
      (Some <$> dotenv_lookup ["AWS_BEDROCK_API_KEY"] lines)
  ∧ _model_id r =
      default (_model_id c) (dotenv_lookup ["AWS_BEDROCK_MODEL_ID"] lines)
  ∧ _aws_region r =
      default (_aws_region c)
        (dotenv_lookup ["AWS_REGION"; "AWS_DEFAULT_REGION"] lines)
  ∧ _use_iam_role r =
      default (_use_iam_role c)
        (flag_is_true <$> dotenv_lookup ["USE_IAM_ROLE"] lines).
Proof.
  simpl. rewrite load_from_dotenv_fold.
  split; [| split; [| split]].
  - apply (fold_dotenv_line_field _ Some _ dotenv_assign_api_key).
  - rewrite (fold_dotenv_line_field _ id _ dotenv_assign_model_id).
    destruct (dotenv_lookup _ _); reflexivity.
  - rewrite (fold_dotenv_line_field _ id _ dotenv_assign_aws_region).
    destruct (dotenv_lookup _ _); reflexivity.
  - apply (fold_dotenv_line_field _ flag_is_true _ dotenv_assign_use_iam_role).
Qed.

(** ** The role flag in the file reader *)

(** C6, as stated, fails: a [USE_IAM_ROLE=false] line in the file turns a
    flag that was on to off, where the same value in the environment leaves
    it on. *)
Lemma load_from_dotenv_clears_flag :
  let c := set_use_iam_role true init in
  let fs : gmap string string := {[ ".env" := "USE_IAM_ROLE=false" ]} in
  _use_iam_role (load_from_dotenv fs ".env" c) ≠ _use_iam_role c
  ∧ _use_iam_role (load_from_env {[ "USE_IAM_ROLE" := "false" ]} c)
    = _use_iam_role c.
Proof. vm_compute. split; [discriminate | reflexivity]. Qed.

(** C6, amended: the file reader assigns the flag. A [USE_IAM_ROLE] line
    with value [v] sets the flag to "lowercased [v] is one of true, 1,
    yes" and touches nothing else; after a whole file the flag is what the
    last such line says, so a last value outside the three words leaves the
    flag off, whatever it was before. Only a file without such a line
    leaves the flag as it was. *)
Theorem load_from_dotenv_assigns_flag :
  (∀ c line v, dotenv_parse line = Some ("USE_IAM_ROLE", v) →
     dotenv_line c line = set_use_iam_role (flag_is_true v) c)
  ∧ (∀ fs path c v,
       dotenv_lookup ["USE_IAM_ROLE"] (dotenv_file_lines fs path) = Some v →
       _use_iam_role (load_from_dotenv fs path c) = flag_is_true v)
  ∧ (∀ fs path c v,
       dotenv_lookup ["USE_IAM_ROLE"] (dotenv_file_lines fs path) = Some v →
       flag_is_true v = false →
       _use_iam_role (load_from_dotenv fs path c) = false)
  ∧ (∀ fs path c,
       dotenv_lookup ["USE_IAM_ROLE"] (dotenv_file_lines fs path) = None →
       _use_iam_role (load_from_dotenv fs path c) = _use_iam_role c).
Proof.
  split; [| split; [| split]].
  - intros c line v Hp. unfold dotenv_line. rewrite Hp. reflexivity.
  - intros fs path c v Hl.
    destruct (load_from_dotenv_fields fs path c) as (_ & _ & _ & Hf).
    rewrite Hf, Hl. reflexivity.
  - intros fs path c v Hl Hv.
    destruct (load_from_dotenv_fields fs path c) as (_ & _ & _ & Hf).
    rewrite Hf, Hl. exact Hv.
  - intros fs path c Hl.
    destruct (load_from_dotenv_fields fs path c) as (_ & _ & _ & Hf).
    rewrite Hf, Hl. reflexivity.
Qed.

Lemma load_from_dotenv_assigns_flag_witness :
  let text := "USE_IAM_ROLE=true" +:+ String "010" "USE_IAM_ROLE = 'No'" in
  _use_iam_role
    (load_from_dotenv {[ ".env" := text ]} ".env" (set_use_iam_role true init))
  = false.
Proof.
  destruct load_from_dotenv_assigns_flag as (_ & _ & H & _).
  apply (H _ _ _ "No"); reflexivity.
Defined.

(** ** Non-empty model identifier and region *)

(** C7, as stated, fails: the file reader and the two setters store the
    empty string. *)
Lemma empty_fields_reachable :
  let fs : gmap string string :=
    {[ ".env" := "AWS_REGION=" +:+ String "010" "AWS_BEDROCK_MODEL_ID=''" ]} in
  _aws_region (load_from_dotenv fs ".env" init) = ""
  ∧ _model_id (load_from_dotenv fs ".env" init) = ""
  ∧ _model_id (set_model_id "" init) = ""
  ∧ _aws_region (set_aws_region "" init) = ""
  ∧ _aws_region (setup_config None None None None true true fs
                   {| instance := None; environ := ∅; stdout := [] |}).1 = "".
Proof. vm_compute. repeat split. Qed.

Lemma load_from_env_nonempty (env : gmap string string) (c : Config) :
  fields_nonempty c → fields_nonempty (load_from_env env c).
Proof.
  intros [Hm Hg]. unfold load_from_env, fields_nonempty.
  destruct (env !! "AWS_BEDROCK_MODEL_ID") as [m |];
    [destruct (Py.truthy m) eqn:Em; [apply truthy_true in Em |] |];
  (destruct (Py.or_ _ _) as [g |];
    [destruct (Py.truthy g) eqn:Eg; [apply truthy_true in Eg |] |]);
  destruct (flag_is_true _); simpl; split; assumption.
Qed.

Lemma setup_config_explicit_nonempty
    (api_key model_id aws_region : option string) (use_iam_role : option bool)
    (c : Config) :
  fields_nonempty c →
  fields_nonempty
    (setup_config_explicit api_key model_id aws_region use_iam_role c).
Proof.
  intros [Hm Hg].
  destruct (setup_config_explicit_fields api_key model_id aws_region
              use_iam_role c) as (_ & Em & Eg & _).
  split.
  - rewrite Em. destruct model_id as [m |]; simpl; [| exact Hm].
    destruct (Py.truthy m) eqn:E; [apply truthy_true in E; exact E | exact Hm].
  - rewrite Eg. destruct aws_region as [g |]; simpl; [| exact Hg].
    destruct (Py.truthy g) eqn:E; [apply truthy_true in E; exact E | exact Hg].
Qed.

Lemma setup_config_detect_nonempty (env : gmap string string) (c : Config) :
  fields_nonempty c → fields_nonempty (setup_config_detect env c).
Proof.
  intros [Hm Hg].
  destruct (setup_config_detect_fields env c) as (_ & Em & Eg & _).
  split; [rewrite Em | rewrite Eg]; assumption.
Qed.

Lemma load_from_dotenv_nonempty (fs : gmap string string) (path : string)
    (c : Config) :
  fields_nonempty c →
  (fields_nonempty (load_from_dotenv fs path c) ↔ dotenv_keeps_nonempty fs path).
Proof.
  intros [Hm Hg].
  destruct (load_from_dotenv_fields fs path c) as (_ & Em & Eg & _).
  unfold fields_nonempty, dotenv_keeps_nonempty. rewrite Em, Eg.
  destruct (dotenv_lookup ["AWS_BEDROCK_MODEL_ID"] _) as [m |],
    (dotenv_lookup ["AWS_REGION"; _] _) as [g |]; simpl;
    split; intros [H1 H2]; split; congruence.
Qed.

Lemma setup_config_load_nonempty (use_dotenv use_env : bool)
    (fs env : gmap string string) (c : Config) :
  fields_nonempty c →
  use_dotenv = false ∨ dotenv_keeps_nonempty fs ".env" →
  fields_nonempty (setup_config_load use_dotenv use_env fs env c).
Proof.
  intros Hc Hfile. unfold setup_config_load.
  assert (H1 : fields_nonempty
                 (if use_dotenv then load_from_dotenv fs ".env" c else c)).
  { destruct use_dotenv; [| exact Hc].
    destruct Hfile as [Hf | Hf]; [discriminate |].
    apply load_from_dotenv_nonempty; assumption. }
  destruct use_env; [apply load_from_env_nonempty |]; exact H1.
Qed.

(** C7, amended: the defaults are not empty, and the environment reader,
    the explicit arguments of [setup_config], detection, the credential
    and flag setters, the publisher and the validator keep the model
    identifier and the region non-empty. The two string setters keep them
    so exactly when given a non-empty string, and the file reader exactly
    when the last model identifier and the last region of the file are not
    empty; under that condition on the file, [setup_config] and
    [ensure_configured] leave a singleton with both fields non-empty. *)
Theorem fields_nonempty_preserved :
  fields_nonempty init
  ∧ (∀ c, fields_nonempty c →
       (∀ env, fields_nonempty (load_from_env env c))
       ∧ (∀ k m g b, fields_nonempty (setup_config_explicit k m g b c))
       ∧ (∀ env, fields_nonempty (setup_config_detect env c))
       ∧ (∀ k, fields_nonempty (set_api_key k c))
       ∧ (∀ b, fields_nonempty (set_use_iam_role b c))
       ∧ (∀ m, fields_nonempty (set_model_id m c) ↔ m ≠ "")
       ∧ (∀ g, fields_nonempty (set_aws_region g c) ↔ g ≠ "")
       ∧ (∀ fs path, fields_nonempty (load_from_dotenv fs path c)
                     ↔ dotenv_keeps_nonempty fs path))
  ∧ (∀ c w, instance (setup_environment c w) = instance w)
  ∧ (∀ k m g b use_dotenv use_env fs w,
       fields_nonempty (get_config w) →
       use_dotenv = false ∨ dotenv_keeps_nonempty fs ".env" →
       let out := setup_config k m g b use_dotenv use_env fs w in
       instance out.2 = Some out.1 ∧ fields_nonempty out.1)
  ∧ (∀ fs w,
       fields_nonempty (get_config w) →
       dotenv_keeps_nonempty fs ".env" →
       ∃ c, instance (ensure_configured fs w).2 = Some c ∧ fields_nonempty c).
Proof.
  split; [| split; [| split; [| split]]].
  - split; discriminate.
  - intros c Hc. pose proof Hc as [Hm Hg].
    split; [| split; [| split; [| split; [| split; [| split; [| split]]]]]].
    + intros env. apply load_from_env_nonempty, Hc.
    + intros k m g b. apply setup_config_explicit_nonempty, Hc.
    + intros env. apply setup_config_detect_nonempty, Hc.
    + intros k. exact Hc.
    + intros b. exact Hc.
    + intros m. unfold fields_nonempty. simpl. tauto.
    + intros g. unfold fields_nonempty. simpl. tauto.
    + intros fs path. apply load_from_dotenv_nonempty, Hc.
  - reflexivity.
  - intros k m g b use_dotenv use_env fs w Hw Hfile. simpl.
    split; [reflexivity |]. unfold setup_config_result.
    apply setup_config_detect_nonempty, setup_config_explicit_nonempty,
      setup_config_load_nonempty; assumption.
  - intros fs w Hw Hfile. unfold ensure_configured.
    destruct (negb (is_configured (get_config w))).
    + match goal with
      | |- context [setup_environment ?c _] => exists c
      end.
      split; [destruct (validate _); reflexivity |].
      assert (H1 : fields_nonempty
                     (load_from_env (environ w)
                        (load_from_dotenv fs ".env" (get_config w)))).
      { apply load_from_env_nonempty, load_from_dotenv_nonempty; assumption. }
      destruct (negb (is_configured _)); [| exact H1].
      destruct (in_lambda (environ w)); exact H1.
    + exists (get_config w).
      split; [destruct (validate _); reflexivity | exact Hw].
Qed.

Lemma fields_nonempty_preserved_witness :
  let w := {| instance := None;
              environ := {[ "AWS_BEDROCK_MODEL_ID" := ""; "AWS_REGION" := "" ]};
              stdout := [] |} in
  let fs : gmap string string := {[ ".env" := "AWS_REGION=us-west-2" ]} in
  fields_nonempty (setup_config (Some "") (Some "") (Some "") None
                     true true fs w).1.
Proof.
  destruct fields_nonempty_preserved as (Hi & _ & _ & Hs & _).
  apply Hs.
  - exact Hi.
  - right. split; vm_compute; discriminate.
Defined.

(** ** Precedence of the environment over the file *)

(** C2, as stated, fails: a role flag the environment sets to [false] does
    not override the file's [true], and a model identifier the environment
    sets to the empty string does not override the file's. *)
Lemma environment_value_not_taken :
  let fs : gmap string string :=
    {[ ".env" := "USE_IAM_ROLE=true" +:+ String "010"
                   "AWS_BEDROCK_MODEL_ID=file-model" ]} in
  let env : gmap string string :=
    {[ "USE_IAM_ROLE" := "false"; "AWS_BEDROCK_MODEL_ID" := "" ]} in
  let lines := dotenv_file_lines fs ".env" in
  let r := setup_config_load true true fs env init in
  _use_iam_role r
  ≠ precedence (flag_is_true <$> env !! "USE_IAM_ROLE")
      (flag_is_true <$> dotenv_lookup ["USE_IAM_ROLE"] lines)
      (_use_iam_role init)
  ∧ _model_id r
    ≠ precedence (env !! "AWS_BEDROCK_MODEL_ID")
        (dotenv_lookup ["AWS_BEDROCK_MODEL_ID"] lines) (_model_id init).
Proof. vm_compute. split; discriminate. Qed.

(** The environment reader assigns the credential without a guard: a
    credential that only the file supplies is gone after the merge. *)
Example load_from_env_drops_file_credential :
  let fs : gmap string string := {[ ".env" := "AWS_BEDROCK_API_KEY=file-key" ]} in
  _aws_bedrock_api_key (load_from_dotenv fs ".env" init) = Some "file-key"
  ∧ _aws_bedrock_api_key (setup_config_load true true fs ∅ init) = None.
Proof. vm_compute. split; reflexivity. Qed.

Lemma or_env_region (env : gmap string string) :
  match Py.or_ (env !! "AWS_REGION") (env !! "AWS_DEFAULT_REGION") with
  | Some g => if Py.truthy g then Some g else None
  | None => None
  end = env_region env.
Proof.
  unfold Py.or_, env_region, env_nonempty.
  destruct (env !! "AWS_REGION") as [g |]; simpl.
  - destruct (Py.truthy g) eqn:E; [rewrite E |]; reflexivity.
  - reflexivity.
Qed.

Lemma load_from_env_fields (env : gmap string string) (c : Config) :
  let r := load_from_env env c in
  _aws_bedrock_api_key r = env !! "AWS_BEDROCK_API_KEY"
  ∧ _model_id r = default (_model_id c) (env_nonempty env "AWS_BEDROCK_MODEL_ID")
  ∧ _aws_region r = default (_aws_region c) (env_region env)
  ∧ _use_iam_role r = default (_use_iam_role c) (env_flag env).
Proof.
  simpl. unfold load_from_env. rewrite <- or_env_region.
  unfold env_nonempty, env_flag.
  destruct (env !! "AWS_BEDROCK_MODEL_ID") as [m |];
    [destruct (Py.truthy m) |];
  (destruct (Py.or_ _ _) as [g |]; [destruct (Py.truthy g) |]);
  (destruct (env !! "USE_IAM_ROLE") as [v |]; simpl;
    [destruct (flag_is_true v) |]);
  simpl; repeat split; reflexivity.
Qed.

(** C2, amended: when both readers run, file first and environment second,
    the model identifier and the region are the environment's value if the
    environment sets a non-empty one (for the region: the primary variable,
    else the fallback), else the file's last value, else what was there;
    the role flag is on if the environment's value is one of true, 1, yes,
    else what the file's last flag line says, else what was there; and the
    credential is the environment's whenever the environment sets it. *)
Theorem environment_over_file (fs env : gmap string string) (c : Config) :
  let lines := dotenv_file_lines fs ".env" in
  let r := setup_config_load true true fs env c in
  _model_id r =
    precedence (env_nonempty env "AWS_BEDROCK_MODEL_ID")
      (dotenv_lookup ["AWS_BEDROCK_MODEL_ID"] lines) (_model_id c)
  ∧ _aws_region r =
      precedence (env_region env)
        (dotenv_lookup ["AWS_REGION"; "AWS_DEFAULT_REGION"] lines)
        (_aws_region c)
  ∧ _use_iam_role r =
      precedence (env_flag env)
        (flag_is_true <$> dotenv_lookup ["USE_IAM_ROLE"] lines)
        (_use_iam_role c)
  ∧ (∀ k, env !! "AWS_BEDROCK_API_KEY" = Some k →
          _aws_bedrock_api_key r = Some k).
Proof.
  simpl. unfold setup_config_load.
  destruct (load_from_env_fields env (load_from_dotenv fs ".env" c))
    as (Ek & Em & Eg & Ef).
  destruct (load_from_dotenv_fields fs ".env" c) as (_ & Fm & Fg & Ff).
  rewrite Em, Eg, Ef, Ek, Fm, Fg, Ff. unfold precedence.
  split; [| split; [| split]].
  - destruct (env_nonempty env _); reflexivity.
  - destruct (env_region env); reflexivity.
  - destruct (env_flag env); reflexivity.
  - intros k Hk. exact Hk.
Qed.

Lemma environment_over_file_witness :
  let fs : gmap string string :=
    {[ ".env" := "AWS_REGION=eu-west-1" +:+ String "010"
                   "AWS_BEDROCK_API_KEY=file-key" ]} in
  let env : gmap string string :=
    {[ "AWS_BEDROCK_API_KEY" := "env-test-key";
       "AWS_DEFAULT_REGION" := "ap-northeast-1" ]} in
  _aws_bedrock_api_key (setup_config_load true true fs env init)
  = Some "env-test-key".
Proof.
  apply (environment_over_file
           {[ ".env" := "AWS_REGION=eu-west-1" +:+ String "010"
                          "AWS_BEDROCK_API_KEY=file-key" ]}
           {[ "AWS_BEDROCK_API_KEY" := "env-test-key";
              "AWS_DEFAULT_REGION" := "ap-northeast-1" ]} init).
  reflexivity.
Defined.

(** ** Quote stripping in the file reader *)

(** C8, as stated, fails: a lone leading quote is removed although nothing
    matches it, a second layer of quotes is removed together with the
    first, and a single-quote layer inside a double-quote layer goes too. *)
Lemma dotenv_value_strips_more_than_one_layer :
  let unmatched := String dquote "abc" in
  let twice := String dquote (String dquote "a" +:+ String dquote (String dquote "")) in
  let mixed := String dquote "'a'" +:+ String dquote "" in
  (spec_dotenv_value unmatched = unmatched ∧ dotenv_value unmatched = "abc")
  ∧ (spec_dotenv_value twice = String dquote "a" +:+ String dquote ""
     ∧ dotenv_value twice = "a")
  ∧ (spec_dotenv_value mixed = "'a'" ∧ dotenv_value mixed = "a")
  ∧ dotenv_parse ("KEY=" +:+ unmatched) = Some ("KEY", "abc").
Proof. vm_compute. repeat split. Qed.

Section Strip.

Implicit Types (p : ascii → bool) (s l r : string).

Lemma append_cons (c : ascii) s l : String c s +:+ l = String c (s +:+ l).
Proof. reflexivity. Qed.

Lemma append_nil s : "" +:+ s = s.
Proof. reflexivity. Qed.

Lemma lstrip_app_all p l s :
  all_chars p l = true → Py.lstrip p (l +:+ s) = Py.lstrip p s.
Proof.
  induction l as [| c l IH]; [reflexivity |].
  rewrite append_cons. simpl.
  intros H. apply andb_true_iff in H. destruct H as [Hc Hl].
  rewrite Hc. apply IH, Hl.
Qed.

Lemma lstrip_head_ok p s : head_ok p s = true → Py.lstrip p s = s.
Proof.
  destruct s as [| c s]; simpl; [reflexivity |].
  intros H. apply negb_true_iff in H. now rewrite H.
Qed.

Lemma lstrip_all p r : all_chars p r = true → Py.lstrip p r = "".
Proof.
  induction r as [| c r IH]; simpl; [reflexivity |].
  intros H. apply andb_true_iff in H. destruct H as [Hc Hr].
  rewrite Hc. apply IH, Hr.
Qed.

Lemma rstrip_all p r : all_chars p r = true → Py.rstrip p r = "".
Proof.
  induction r as [| c r IH]; simpl; [reflexivity |].
  intros H. apply andb_true_iff in H. destruct H as [Hc Hr].
  rewrite (IH Hr), Hc. reflexivity.
Qed.

Lemma rstrip_app_all p s r :
  all_chars p r = true → Py.rstrip p (s +:+ r) = Py.rstrip p s.
Proof.
  intros Hr. induction s as [| c s IH].
  - rewrite append_nil. apply rstrip_all, Hr.
  - rewrite append_cons. simpl. rewrite IH. reflexivity.
Qed.

Lemma rstrip_last_ok p s : last_ok p s = true → Py.rstrip p s = s.
Proof.
  induction s as [| c s IH]; [reflexivity |].
  destruct s as [| d s].
  - simpl. intros H. apply negb_true_iff in H. now rewrite H.
  - intros H. change (last_ok p (String d s) = true) in H.
    change (Py.rstrip p (String c (String d s)))
      with (match Py.rstrip p (String d s) with
            | EmptyString => if p c then EmptyString else String c EmptyString
            | String _ _ as r0 => String c r0
            end).
    rewrite (IH H). reflexivity.
Qed.

(** [strip] takes a run of [p] characters off each side of a text that
    neither begins nor ends with one. *)
Lemma strip_sandwich p l s r :
  all_chars p l = true → all_chars p r = true →
  head_ok p s = true → last_ok p s = true →
  Py.strip p (l +:+ s +:+ r) = s.
Proof.
  intros Hl Hr Hh Hla. unfold Py.strip.
  rewrite (lstrip_app_all _ _ _ Hl).
  destruct s as [| c s].
  - rewrite append_nil, (lstrip_all _ _ Hr). reflexivity.
  - rewrite lstrip_head_ok.
    + rewrite (rstrip_app_all _ _ _ Hr). apply rstrip_last_ok, Hla.
    + exact Hh.
Qed.

Lemma head_ok_app p s l :
  head_ok p s = true → head_ok p l = true → head_ok p (s +:+ l) = true.
Proof. destruct s; [rewrite append_nil | rewrite append_cons]; simpl; auto. Qed.

Lemma last_ok_app p s l :
  last_ok p s = true → last_ok p l = true → last_ok p (s +:+ l) = true.
Proof.
  intros Hs Hl. induction s as [| c s IH]; [exact Hl |].
  destruct s as [| d s].
  - rewrite append_cons, append_nil. destruct l as [| e l]; [exact Hs | exact Hl].
  - rewrite append_cons.
    change (last_ok p (String d s) = true) in Hs. specialize (IH Hs).
    rewrite append_cons in IH |- *. exact IH.
Qed.

Lemma all_other_ends_ok p (q : ascii → bool) s :
  (∀ c, q c = true → p c = false) →
  all_chars q s = true → head_ok p s = true ∧ last_ok p s = true.
Proof.
  intros Hqp. induction s as [| c s IH]; simpl; [auto |].
  intros H. apply andb_true_iff in H. destruct H as [Hc Hs].
  rewrite (Hqp _ Hc). split; [reflexivity |].
  destruct s; [reflexivity | apply IH, Hs].
Qed.

Lemma head_ok_weaken p (q : ascii → bool) s :
  (∀ c, p c = true → q c = true) → head_ok q s = true → head_ok p s = true.
Proof.
  intros Hpq. destruct s as [| c s]; simpl; [auto |].
  intros H. apply negb_true_iff in H. apply negb_true_iff.
  destruct (p c) eqn:E; [| reflexivity]. rewrite (Hpq _ E) in H. discriminate.
Qed.

Lemma last_ok_weaken p (q : ascii → bool) s :
  (∀ c, p c = true → q c = true) → last_ok q s = true → last_ok p s = true.
Proof.
  intros Hpq. induction s as [| c s IH]; [auto |].
  destruct s as [| d s]; [| exact IH].
  simpl. intros H. apply negb_true_iff in H. apply negb_true_iff.
  destruct (p c) eqn:E; [| reflexivity]. rewrite (Hpq _ E) in H. discriminate.
Qed.

End Strip.

Lemma append_assoc_str (s l r : string) : (s +:+ l) +:+ r = s +:+ (l +:+ r).
Proof.
  induction s as [| c s IH]; [reflexivity |].
  rewrite !append_cons, IH. reflexivity.
Qed.

Lemma is_dquote_eq (c : ascii) : is_dquote c = true → c = dquote.
Proof.
  unfold is_dquote. simpl. rewrite orb_false_r. apply Ascii.eqb_eq.
Qed.

Lemma is_squote_eq (c : ascii) : is_squote c = true → c = squote.
Proof.
  unfold is_squote. simpl. rewrite orb_false_r. apply Ascii.eqb_eq.
Qed.

Lemma dquote_not_space (c : ascii) : is_dquote c = true → Py.isspace c = false.
Proof. intros H. apply is_dquote_eq in H. subst c. reflexivity. Qed.

Lemma squote_not_space (c : ascii) : is_squote c = true → Py.isspace c = false.
Proof. intros H. apply is_squote_eq in H. subst c. reflexivity. Qed.

Lemma squote_not_dquote (c : ascii) : is_squote c = true → is_dquote c = false.
Proof. intros H. apply is_squote_eq in H. subst c. reflexivity. Qed.

Lemma strippable_space (c : ascii) : Py.isspace c = true → strippable c = true.
Proof. unfold strippable. intros ->. reflexivity. Qed.

Lemma strippable_dquote (c : ascii) : is_dquote c = true → strippable c = true.
Proof. unfold strippable. intros ->. apply orb_true_iff. left. apply orb_true_r. Qed.

Lemma strippable_squote (c : ascii) : is_squote c = true → strippable c = true.
Proof. unfold strippable. intros ->. apply orb_true_r. Qed.

(** C8, amended: the value is trimmed of whitespace, then loses every
    leading and every trailing double quote, then every leading and every
    trailing single quote, matched or not and however many layers there
    are: whitespace, then any number of double quotes, then any number of
    single quotes around a body that neither begins nor ends with one of
    these characters all come off, on each side independently. *)
Theorem dotenv_value_strips_all_layers (w1 d1 q1 body q2 d2 w2 : string) :
  all_chars Py.isspace w1 = true → all_chars Py.isspace w2 = true →
  all_chars is_dquote d1 = true → all_chars is_dquote d2 = true →
  all_chars is_squote q1 = true → all_chars is_squote q2 = true →
  head_ok strippable body = true → last_ok strippable body = true →
  dotenv_value (w1 +:+ d1 +:+ q1 +:+ body +:+ q2 +:+ d2 +:+ w2) = body.
Proof.
  intros Hw1 Hw2 Hd1 Hd2 Hq1 Hq2 Hh Hl.
  destruct (all_other_ends_ok Py.isspace _ _ dquote_not_space Hd1) as [A1 A2].
  destruct (all_other_ends_ok Py.isspace _ _ dquote_not_space Hd2) as [A3 A4].
  destruct (all_other_ends_ok Py.isspace _ _ squote_not_space Hq1) as [B1 B2].
  destruct (all_other_ends_ok Py.isspace _ _ squote_not_space Hq2) as [B3 B4].
  destruct (all_other_ends_ok is_dquote _ _ squote_not_dquote Hq1) as [C1 C2].
  destruct (all_other_ends_ok is_dquote _ _ squote_not_dquote Hq2) as [C3 C4].
  pose proof (head_ok_weaken _ _ _ strippable_space Hh) as E1.
  pose proof (last_ok_weaken _ _ _ strippable_space Hl) as E2.
  pose proof (head_ok_weaken _ _ _ strippable_dquote Hh) as E3.
  pose proof (last_ok_weaken _ _ _ strippable_dquote Hl) as E4.
  pose proof (head_ok_weaken _ _ _ strippable_squote Hh) as E5.
  pose proof (last_ok_weaken _ _ _ strippable_squote Hl) as E6.
  unfold dotenv_value.
  change (Py.char_in (String dquote EmptyString)) with is_dquote.
  change (Py.char_in (String squote EmptyString)) with is_squote.
  replace (w1 +:+ d1 +:+ q1 +:+ body +:+ q2 +:+ d2 +:+ w2)
    with (w1 +:+ (d1 +:+ (q1 +:+ body +:+ q2) +:+ d2) +:+ w2)
    by (rewrite !append_assoc_str; reflexivity).
  rewrite (strip_sandwich Py.isspace); try assumption.
  - rewrite (strip_sandwich is_dquote); try assumption.
    + apply strip_sandwich; assumption.
    + repeat apply head_ok_app; assumption.
    + repeat apply last_ok_app; assumption.
  - repeat apply head_ok_app; assumption.
  - repeat apply last_ok_app; assumption.
Qed.

Lemma dotenv_value_strips_all_layers_witness :
  dotenv_value
    (" " +:+ String dquote (String dquote "") +:+ "'" +:+ "a b" +:+ ""
       +:+ String dquote "" +:+ String "010" "")
  = "a b".
Proof.
  apply (dotenv_value_strips_all_layers
           " " (String dquote (String dquote "")) "'" "a b" ""
           (String dquote "") (String "010" "")); reflexivity.
Defined.

(** * Further properties of the code *)

Lemma Config_eq (c d : Config) :
  _aws_bedrock_api_key c = _aws_bedrock_api_key d →
  _model_id c = _model_id d →
  _aws_region c = _aws_region d →
  _use_iam_role c = _use_iam_role d →
  c = d.
Proof.
  destruct c, d. simpl. intros -> -> -> ->. reflexivity.
Qed.

Lemma opt_truthy_false_nonempty (env : gmap string string) (k : string) :
  Py.opt_truthy (env !! k) = false → env_nonempty env k = None.
Proof.
  unfold env_nonempty. destruct (env !! k) as [v |]; simpl; [| reflexivity].
  intros ->. reflexivity.
Qed.

Lemma env_nonempty_some (env : gmap string string) (k v : string) :
  env !! k = Some v → v ≠ "" → env_nonempty env k = Some v.
Proof.
  intros Hk Hv. unfold env_nonempty. rewrite Hk.
  apply truthy_true in Hv. rewrite Hv. reflexivity.
Qed.

(** ** The environment reader *)

(** X1: the region comes from [AWS_REGION] when that variable is set and
    not empty, from [AWS_DEFAULT_REGION] when the primary is unset or empty
    and the fallback is set and not empty, and is left alone when neither
    variable has a non-empty value. *)
Theorem load_from_env_region_fallback (env : gmap string string) (c : Config) :
  (∀ g, env !! "AWS_REGION" = Some g → g ≠ "" →
        _aws_region (load_from_env env c) = g)
  ∧ (∀ g, Py.opt_truthy (env !! "AWS_REGION") = false →
          env !! "AWS_DEFAULT_REGION" = Some g → g ≠ "" →
          _aws_region (load_from_env env c) = g)
  ∧ (Py.opt_truthy (env !! "AWS_REGION") = false →
     Py.opt_truthy (env !! "AWS_DEFAULT_REGION") = false →
     _aws_region (load_from_env env c) = _aws_region c).
Proof.
  destruct (load_from_env_fields env c) as (_ & _ & Hg & _).
  rewrite Hg. unfold env_region.
  split; [| split].
  - intros g Hk Hne. rewrite (env_nonempty_some _ _ _ Hk Hne). reflexivity.
  - intros g Hp Hk Hne.
    rewrite (opt_truthy_false_nonempty _ _ Hp), (env_nonempty_some _ _ _ Hk Hne).
    reflexivity.
  - intros Hp Hd.
    rewrite (opt_truthy_false_nonempty _ _ Hp), (opt_truthy_false_nonempty _ _ Hd).
    reflexivity.
Qed.

Lemma load_from_env_region_fallback_witness :
  _aws_region
    (load_from_env {[ "AWS_REGION" := ""; "AWS_DEFAULT_REGION" := "eu-central-1" ]}
       init)
  = "eu-central-1".
Proof.
  apply (load_from_env_region_fallback
           {[ "AWS_REGION" := ""; "AWS_DEFAULT_REGION" := "eu-central-1" ]} init);
    [reflexivity | reflexivity | discriminate].
Defined.

(** X2: reading the same environment a second time changes nothing. *)
Theorem load_from_env_idempotent (env : gmap string string) (c : Config) :
  load_from_env env (load_from_env env c) = load_from_env env c.
Proof.
  destruct (load_from_env_fields env (load_from_env env c)) as (Hk & Hm & Hg & Hf).
  destruct (load_from_env_fields env c) as (Hk' & Hm' & Hg' & Hf').
  apply Config_eq.
  - rewrite Hk, Hk'. reflexivity.
  - rewrite Hm, Hm'. destruct (env_nonempty env _); reflexivity.
  - rewrite Hg, Hg'. destruct (env_region env); reflexivity.
  - rewrite Hf, Hf'. destruct (env_flag env); reflexivity.
Qed.

(** ** The publisher *)

(** X3: after publishing, the credential variable holds the credential in
    [api_key] mode and is absent in [iam_role] mode, whatever the
    environment held before. *)
Theorem setup_environment_credential_variable (c : Config) (w : World) :
  (authentication_mode c = "api_key" →
     environ (setup_environment c w) !! "AWS_BEDROCK_API_KEY"
     = _aws_bedrock_api_key c)
  ∧ (authentication_mode c = "iam_role" →
     environ (setup_environment c w) !! "AWS_BEDROCK_API_KEY" = None).
Proof.
  simpl. rewrite publish_environ_lookup. simpl.
  split; intros ->; reflexivity.
Qed.

Lemma setup_environment_credential_variable_witness :
  environ
    (setup_environment (set_use_iam_role true (set_api_key "k" init))
       {| instance := None;
          environ := {[ "AWS_BEDROCK_API_KEY" := "stale" ]};
          stdout := [] |})
    !! "AWS_BEDROCK_API_KEY" = None.
Proof.
  apply (setup_environment_credential_variable
           (set_use_iam_role true (set_api_key "k" init))).
  reflexivity.
Defined.

(** X4: the publisher writes four variables at most. Every other variable
    keeps its value, so the managed-runtime markers are never written; and
    [AWS_DEFAULT_REGION], once set from outside, is never overwritten. *)
Theorem setup_environment_frame (c : Config) (w : World) :
  (∀ k, k ∉ ["AWS_BEDROCK_API_KEY"; "AWS_BEDROCK_MODEL_ID"; "AWS_REGION";
              "AWS_DEFAULT_REGION"] →
        environ (setup_environment c w) !! k = environ w !! k)
  ∧ (∀ v, environ w !! "AWS_DEFAULT_REGION" = Some v →
          environ (setup_environment c w) !! "AWS_DEFAULT_REGION" = Some v)
  ∧ in_lambda (environ (setup_environment c w)) = in_lambda (environ w).
Proof.
  simpl. split; [| split].
  - intros k Hk. rewrite publish_environ_lookup.
    repeat case_decide; try reflexivity; subst; exfalso; apply Hk;
      repeat constructor.
  - intros v Hv. rewrite publish_environ_lookup. simpl. rewrite Hv.
    reflexivity.
  - unfold in_lambda. rewrite !publish_environ_lookup. reflexivity.
Qed.

Lemma setup_environment_frame_witness :
  environ
    (setup_environment init
       {| instance := None;
          environ := {[ "AWS_DEFAULT_REGION" := "eu-north-1" ]};
          stdout := [] |})
    !! "AWS_DEFAULT_REGION" = Some "eu-north-1".
Proof.
  apply (setup_environment_frame init). reflexivity.
Defined.

Lemma publish_environ_env_flag (c : Config) (env : gmap string string) :
  env_flag (publish_environ c env) = env_flag env.
Proof. unfold env_flag. rewrite publish_environ_lookup. reflexivity. Qed.

(** X5: what a reader finds after the publisher ran. Reading the published
    environment into any configuration gives back the published model
    identifier and region when they are not empty, the credential in
    [api_key] mode and no credential in [iam_role] mode; and a fresh reader
    (role flag off, no truthy [USE_IAM_ROLE] around) infers the mode the
    publisher had. *)
Theorem publish_then_read (c c0 : Config) (w : World) :
  let r := load_from_env (environ (setup_environment c w)) c0 in
  (authentication_mode c = "api_key" →
     _aws_bedrock_api_key r = _aws_bedrock_api_key c)
  ∧ (authentication_mode c = "iam_role" → _aws_bedrock_api_key r = None)
  ∧ (_model_id c ≠ "" → _model_id r = _model_id c)
  ∧ (_aws_region c ≠ "" → _aws_region r = _aws_region c)
  ∧ (env_flag (environ w) = None → _use_iam_role c0 = false →
     authentication_mode r = authentication_mode c).
Proof.
  simpl.
  destruct (load_from_env_fields (publish_environ c (environ w)) c0)
    as (Hk & Hm & Hg & Hf).
  rewrite publish_environ_lookup in Hk. simpl in Hk.
  split; [| split; [| split; [| split]]].
  - intros Ha. rewrite Hk, Ha. reflexivity.
  - intros Ha. rewrite Hk, Ha. reflexivity.
  - intros Hne. rewrite Hm. unfold env_nonempty.
    rewrite publish_environ_lookup. simpl.
    apply truthy_true in Hne. rewrite Hne. simpl. rewrite Hne. reflexivity.
  - intros Hne. rewrite Hg. unfold env_region, env_nonempty.
    rewrite publish_environ_lookup. simpl.
    apply truthy_true in Hne. rewrite Hne. simpl. rewrite Hne. reflexivity.
  - intros He H0. rewrite publish_environ_env_flag, He in Hf. simpl in Hf.
    unfold authentication_mode at 1. rewrite Hf, H0, Hk.
    destruct (String.eqb_spec (authentication_mode c) "api_key") as [Ha | Ha].
    + rewrite Ha. apply authentication_mode_api_key in Ha.
      destruct Ha as [Ht _]. rewrite Ht. reflexivity.
    + destruct (authentication_mode_cases c) as [Hc | Hc];
        [contradiction | rewrite Hc; reflexivity].
Qed.

Lemma publish_then_read_witness :
  let c := set_aws_region "eu-west-1" (set_api_key "k" init) in
  let w := {| instance := None; environ := ∅; stdout := [] |} in
  authentication_mode (load_from_env (environ (setup_environment c w)) init)
  = authentication_mode c.
Proof.
  apply (publish_then_read (set_aws_region "eu-west-1" (set_api_key "k" init))
           init {| instance := None; environ := ∅; stdout := [] |});
    reflexivity.
Defined.

(** ** The file reader *)

(** X6: after a file was read, every field holds the value of the last
    line of the file that assigns it, or what it held before when no line
    does. In the file the two region keys are equals: the later line wins,
    whichever key it uses. *)
Theorem load_from_dotenv_last_wins (fs : gmap string string) (path : string)
    (c : Config) :
  let lines := dotenv_file_lines fs path in
  let r := load_from_dotenv fs path c in
  _aws_bedrock_api_key r =
    default (_aws_bedrock_api_key c)
      (Some <$> dotenv_lookup ["AWS_BEDROCK_API_KEY"] lines)
  ∧ _model_id r =
      default (_model_id c) (dotenv_lookup ["AWS_BEDROCK_MODEL_ID"] lines)
  ∧ _aws_region r =
      default (_aws_region c)
        (dotenv_lookup ["AWS_REGION"; "AWS_DEFAULT_REGION"] lines)
  ∧ _use_iam_role r =
      default (_use_iam_role c)
        (flag_is_true <$> dotenv_lookup ["USE_IAM_ROLE"] lines).
Proof. apply load_from_dotenv_fields. Qed.

Lemma option_default_idem {A : Type} (o : option A) (d : A) :
  default (default d o) o = default d o.
Proof. destruct o; reflexivity. Qed.

(** X7: reading the same file a second time changes nothing. *)
Theorem load_from_dotenv_idempotent (fs : gmap string string) (path : string)
    (c : Config) :
  load_from_dotenv fs path (load_from_dotenv fs path c)
  = load_from_dotenv fs path c.
Proof.
  destruct (load_from_dotenv_fields fs path (load_from_dotenv fs path c))
    as (Hk & Hm & Hg & Hf).
  destruct (load_from_dotenv_fields fs path c) as (Hk' & Hm' & Hg' & Hf').
  apply Config_eq.
  - rewrite Hk, Hk'. apply option_default_idem.
  - rewrite Hm, Hm'. apply option_default_idem.
  - rewrite Hg, Hg'. apply option_default_idem.
  - rewrite Hf, Hf'. apply option_default_idem.
Qed.

(** ** The line parser of the file reader *)

Section StripMore.

Implicit Types (p : ascii → bool) (s l r : string).

Lemma lstrip_clean p s : head_ok p (Py.lstrip p s) = true.
Proof.
  induction s as [| c s IH]; simpl; [reflexivity |].
  destruct (p c) eqn:E; [exact IH |]. simpl. rewrite E. reflexivity.
Qed.

Lemma rstrip_cons p (c : ascii) s :
  Py.rstrip p (String c s) =
    match Py.rstrip p s with
    | EmptyString => if p c then EmptyString else String c EmptyString
    | String _ _ as r0 => String c r0
    end.
Proof. reflexivity. Qed.

Lemma rstrip_clean p s : last_ok p (Py.rstrip p s) = true.
Proof.
  induction s as [| c s IH]; [reflexivity |].
  rewrite rstrip_cons. destruct (Py.rstrip p s) as [| d t] eqn:E.
  - destruct (p c) eqn:Ec; simpl; [reflexivity | now rewrite Ec].
  - exact IH.
Qed.

Lemma rstrip_keeps_head p s :
  head_ok p s = true → head_ok p (Py.rstrip p s) = true.
Proof.
  destruct s as [| c s]; [reflexivity |].
  rewrite rstrip_cons. simpl. intros H.
  destruct (Py.rstrip p s); [| exact H].
  apply negb_true_iff in H. rewrite H. simpl. now rewrite H.
Qed.

Lemma strip_clean p s :
  head_ok p (Py.strip p s) = true ∧ last_ok p (Py.strip p s) = true.
Proof.
  unfold Py.strip. split.
  - apply rstrip_keeps_head, lstrip_clean.
  - apply rstrip_clean.
Qed.

Lemma rstrip_idempotent p s :
  Py.rstrip p (Py.rstrip p s) = Py.rstrip p s.
Proof. apply rstrip_last_ok, rstrip_clean. Qed.

Lemma lstrip_rstrip_comm p s :
  Py.lstrip p (Py.rstrip p s) = Py.rstrip p (Py.lstrip p s).
Proof.
  induction s as [| c s IH]; [reflexivity |].
  rewrite rstrip_cons. simpl Py.lstrip at 2.
  destruct (p c) eqn:Ec.
  - rewrite <- IH. destruct (Py.rstrip p s) as [| d t]; [reflexivity |].
    simpl. rewrite Ec. reflexivity.
  - rewrite rstrip_cons.
    destruct (Py.rstrip p s) as [| d t]; simpl; rewrite Ec; simpl;
      rewrite ?Ec; reflexivity.
Qed.

Lemma strip_rstrip p s : Py.strip p (Py.rstrip p s) = Py.strip p s.
Proof.
  unfold Py.strip. rewrite lstrip_rstrip_comm. apply rstrip_idempotent.
Qed.

(** A character outside [p] stops [rstrip]: what is before it stays. *)
Lemma rstrip_app_keep p l (c : ascii) r :
  p c = false →
  Py.rstrip p (l +:+ String c r) = l +:+ String c (Py.rstrip p r).
Proof.
  intros Hc. induction l as [| d l IH].
  - rewrite !append_nil, rstrip_cons.
    destruct (Py.rstrip p r); [rewrite Hc |]; reflexivity.
  - rewrite !append_cons, rstrip_cons, IH.
    destruct l; reflexivity.
Qed.

Lemma head_ok_app_nonempty p s l :
  s ≠ "" → head_ok p s = true → head_ok p (s +:+ l) = true.
Proof. destruct s; [congruence |]. intros _ H. exact H. Qed.

Lemma contains_app (c : ascii) s l :
  Py.contains c (s +:+ l) = Py.contains c s || Py.contains c l.
Proof.
  induction s as [| d s IH]; [reflexivity |].
  rewrite append_cons. simpl. rewrite IH. apply orb_assoc.
Qed.

Lemma contains_all_other p (c : ascii) s :
  p c = false → all_chars p s = true → Py.contains c s = false.
Proof.
  intros Hc. induction s as [| d s IH]; simpl; [reflexivity |].
  intros H. apply andb_true_iff in H. destruct H as [Hd Hs].
  rewrite (IH Hs), orb_false_r. apply Ascii.eqb_neq. congruence.
Qed.

Lemma contains_lstrip p (c : ascii) s :
  Py.contains c s = false → Py.contains c (Py.lstrip p s) = false.
Proof.
  induction s as [| d s IH]; simpl; [reflexivity |].
  intros H. apply orb_false_iff in H. destruct H as [Hd Hs].
  destruct (p d); [apply IH, Hs |]. simpl. rewrite Hd, Hs. reflexivity.
Qed.

Lemma contains_rstrip p (c : ascii) s :
  Py.contains c s = false → Py.contains c (Py.rstrip p s) = false.
Proof.
  induction s as [| d s IH]; [reflexivity |].
  simpl Py.contains at 1. intros H. apply orb_false_iff in H.
  destruct H as [Hd Hs]. rewrite rstrip_cons. specialize (IH Hs).
  destruct (Py.rstrip p s) as [| e t].
  - destruct (p d); [reflexivity |]. simpl. rewrite Hd. reflexivity.
  - simpl in *. rewrite Hd. exact IH.
Qed.

Lemma split1_first (sep : ascii) s l :
  Py.contains sep s = false →
  Py.split1 sep (s +:+ String sep l) = Some (s, l).
Proof.
  induction s as [| c s IH].
  - intros _. rewrite append_nil. simpl. rewrite Ascii.eqb_refl. reflexivity.
  - simpl Py.contains. intros H. apply orb_false_iff in H.
    destruct H as [Hc Hs]. rewrite append_cons. simpl.
    rewrite Hc, (IH Hs). reflexivity.
Qed.

Lemma split1_parts (sep : ascii) s k v :
  Py.split1 sep s = Some (k, v) →
  s = k +:+ String sep v ∧ Py.contains sep k = false.
Proof.
  revert k. induction s as [| c s IH]; intros k; simpl; [discriminate |].
  destruct (Ascii.eqb c sep) eqn:E.
  - intros [= <- <-]. apply Ascii.eqb_eq in E. subst c. split; reflexivity.
  - destruct (Py.split1 sep s) as [[k' v'] |]; [| discriminate].
    intros [= <- <-]. destruct (IH k' eq_refl) as [-> Hk].
    split; [reflexivity |]. simpl. rewrite E, Hk. reflexivity.
Qed.

End StripMore.

Lemma equals_not_space : Py.isspace "=" = false.
Proof. reflexivity. Qed.

Lemma hash_not_space : Py.isspace "#" = false.
Proof. reflexivity. Qed.

Lemma dotenv_value_rstrip (rest : string) :
  dotenv_value (Py.rstrip Py.isspace rest) = dotenv_value rest.
Proof. unfold dotenv_value. rewrite strip_rstrip. reflexivity. Qed.

(** X8: an assignment line is split at its first [=]. Around a key that
    is not empty, has no [=], does not begin with [#] and neither begins
    nor ends with whitespace, any whitespace before the key and between key
    and [=] is dropped, and the value is whatever follows the first [=],
    further [=] signs included, trimmed and unquoted. *)
Theorem dotenv_parse_assignment (w1 key w2 rest : string) :
  all_chars Py.isspace w1 = true → all_chars Py.isspace w2 = true →
  key ≠ "" → Py.contains "=" key = false → Py.startswith "#" key = false →
  head_ok Py.isspace key = true → last_ok Py.isspace key = true →
  dotenv_parse (w1 +:+ key +:+ w2 +:+ String "=" rest)
  = Some (key, dotenv_value rest).
Proof.
  intros Hw1 Hw2 Hne Heq Hhash Hh Hl. unfold dotenv_parse.
  assert (Hs : Py.strip Py.isspace (w1 +:+ key +:+ w2 +:+ String "=" rest)
               = (key +:+ w2) +:+ String "=" (Py.rstrip Py.isspace rest)).
  { unfold Py.strip. rewrite (lstrip_app_all _ _ _ Hw1).
    rewrite lstrip_head_ok by (apply head_ok_app_nonempty; assumption).
    rewrite <- append_assoc_str.
    apply rstrip_app_keep, equals_not_space. }
  rewrite Hs.
  assert (Ht : Py.truthy ((key +:+ w2) +:+
                          String "=" (Py.rstrip Py.isspace rest)) = true).
  { destruct key; [congruence | reflexivity]. }
  assert (Hc : Py.startswith "#" ((key +:+ w2) +:+
                 String "=" (Py.rstrip Py.isspace rest)) = false).
  { destruct key; [congruence | exact Hhash]. }
  rewrite Ht, Hc. simpl.
  rewrite split1_first.
  - rewrite dotenv_value_rstrip.
    rewrite <- (append_nil (key +:+ w2)).
    rewrite (strip_sandwich Py.isspace "" key w2); auto.
  - rewrite contains_app, Heq. simpl.
    apply (contains_all_other Py.isspace); [apply equals_not_space | exact Hw2].
Qed.

Lemma dotenv_parse_assignment_witness :
  dotenv_parse ("  AWS_BEDROCK_API_KEY = 'abc=def=='  " +:+ String "010" "")
  = Some ("AWS_BEDROCK_API_KEY",
          dotenv_value (" 'abc=def=='  " +:+ String "010" "")).
Proof.
  apply (dotenv_parse_assignment "  " "AWS_BEDROCK_API_KEY" " "
           (" 'abc=def=='  " +:+ String "010" ""));
    first [reflexivity | discriminate].
Defined.

(** X9: blank lines and comment lines are skipped: a line of whitespace
    only, and a line whose first character after leading whitespace is
    [#], leave the configuration as it is, also when the comment contains
    an assignment to a recognized key. *)
Theorem dotenv_line_skips_blank_and_comment (c : Config) (w rest : string) :
  all_chars Py.isspace w = true →
  dotenv_line c w = c ∧ dotenv_line c (w +:+ String "#" rest) = c.
Proof.
  intros Hw. unfold dotenv_line, dotenv_parse. split.
  - unfold Py.strip. rewrite (lstrip_all _ _ Hw). reflexivity.
  - unfold Py.strip. rewrite (lstrip_app_all _ _ _ Hw).
    simpl Py.lstrip. rewrite <- (append_nil (String "#" rest)).
    rewrite (rstrip_app_keep _ _ _ _ hash_not_space). reflexivity.
Qed.

Lemma dotenv_line_skips_blank_and_comment_witness :
  dotenv_line init ("   # USE_IAM_ROLE=true" +:+ String "010" "") = init.
Proof.
  apply (dotenv_line_skips_blank_and_comment init "   "
           (" USE_IAM_ROLE=true" +:+ String "010" "")).
  reflexivity.
Defined.

(** X10: what the parser hands to the assignment chain. A parsed key has
    no [=] and neither begins nor ends with whitespace; a parsed value
    neither begins nor ends with a single quote. *)
Theorem dotenv_parse_shape (line key value : string) :
  dotenv_parse line = Some (key, value) →
  Py.contains "=" key = false
  ∧ head_ok Py.isspace key = true ∧ last_ok Py.isspace key = true
  ∧ head_ok is_squote value = true ∧ last_ok is_squote value = true.
Proof.
  unfold dotenv_parse. destruct (_ && _); [| discriminate].
  destruct (Py.split1 "=" _) as [[k v] |] eqn:E; [| discriminate].
  intros [= <- <-]. apply split1_parts in E. destruct E as [_ Hk].
  split; [| split; [| split; [| split]]].
  - unfold Py.strip. apply contains_rstrip, contains_lstrip, Hk.
  - apply strip_clean.
  - apply strip_clean.
  - unfold dotenv_value. apply strip_clean.
  - unfold dotenv_value. apply strip_clean.
Qed.

Lemma dotenv_parse_shape_witness :
  Py.contains "=" "K" = false
  ∧ head_ok Py.isspace "K" = true ∧ last_ok Py.isspace "K" = true
  ∧ head_ok is_squote "a=b" = true ∧ last_ok is_squote "a=b" = true.
Proof.
  exact (dotenv_parse_shape " K = 'a=b' " "K" "a=b" eq_refl).
Defined.

(** ** [setup_config] as a whole *)

Lemma setup_config_load_fields (use_dotenv use_env : bool)
    (fs env : gmap string string) (c : Config) :
  let lines := if use_dotenv then dotenv_file_lines fs ".env" else [] in
  let r := setup_config_load use_dotenv use_env fs env c in
  _aws_bedrock_api_key r =
    (if use_env then env !! "AWS_BEDROCK_API_KEY"
     else default (_aws_bedrock_api_key c)
            (Some <$> dotenv_lookup ["AWS_BEDROCK_API_KEY"] lines))
  ∧ _model_id r =
      precedence (if use_env then env_nonempty env "AWS_BEDROCK_MODEL_ID" else None)
        (dotenv_lookup ["AWS_BEDROCK_MODEL_ID"] lines) (_model_id c)
  ∧ _aws_region r =
      precedence (if use_env then env_region env else None)
        (dotenv_lookup ["AWS_REGION"; "AWS_DEFAULT_REGION"] lines)
        (_aws_region c)
  ∧ _use_iam_role r =
      precedence (if use_env then env_flag env else None)
        (flag_is_true <$> dotenv_lookup ["USE_IAM_ROLE"] lines)
        (_use_iam_role c).
Proof.
  simpl. unfold setup_config_load, precedence.
  destruct use_dotenv, use_env.
  - destruct (load_from_env_fields env (load_from_dotenv fs ".env" c))
      as (Ek & Em & Eg & Ef).
    destruct (load_from_dotenv_fields fs ".env" c) as (_ & Fm & Fg & Ff).
    rewrite Ek, Em, Eg, Ef, Fm, Fg, Ff.
    destruct (env_nonempty env _), (env_region env), (env_flag env);
      repeat split; reflexivity.
  - destruct (load_from_dotenv_fields fs ".env" c) as (Fk & Fm & Fg & Ff).
    rewrite Fk, Fm, Fg, Ff. repeat split; reflexivity.
  - destruct (load_from_env_fields env c) as (Ek & Em & Eg & Ef).
    rewrite Ek, Em, Eg, Ef. simpl.
    destruct (env_nonempty env _), (env_region env), (env_flag env);
      repeat split; reflexivity.
  - simpl. repeat split; reflexivity.
Qed.

(** X11: the whole resolution of [setup_config] with both readers on. Model
    identifier and region: the explicit argument if not empty, else the
    environment's non-empty value, else the file's last value, else what
    the singleton held. Credential: the explicit argument if not empty,
    else exactly what the environment holds, nothing included. Role flag:
    the explicit argument if given, else on by the environment, else the
    file's last flag, else what the singleton held; and finally turned on
    when no non-empty credential was resolved inside a managed runtime. *)
Theorem setup_config_resolution
    (api_key model_id aws_region : option string) (use_iam_role : option bool)
    (fs : gmap string string) (w : World) :
  let lines := dotenv_file_lines fs ".env" in
  let env := environ w in
  let c0 := get_config w in
  let r := (setup_config api_key model_id aws_region use_iam_role
              true true fs w).1 in
  _aws_bedrock_api_key r =
    (if Py.opt_truthy api_key then api_key else env !! "AWS_BEDROCK_API_KEY")
  ∧ _model_id r =
      (if Py.opt_truthy model_id then default "" model_id
       else precedence (env_nonempty env "AWS_BEDROCK_MODEL_ID")
              (dotenv_lookup ["AWS_BEDROCK_MODEL_ID"] lines) (_model_id c0))
  ∧ _aws_region r =
      (if Py.opt_truthy aws_region then default "" aws_region
       else precedence (env_region env)
              (dotenv_lookup ["AWS_REGION"; "AWS_DEFAULT_REGION"] lines)
              (_aws_region c0))
  ∧ _use_iam_role r =
      (default
         (precedence (env_flag env)
            (flag_is_true <$> dotenv_lookup ["USE_IAM_ROLE"] lines)
            (_use_iam_role c0))
         use_iam_role
       || (negb (Py.opt_truthy (_aws_bedrock_api_key r)) && in_lambda env)).
Proof.
  simpl. unfold setup_config_result.
  set (c := setup_config_load true true fs (environ w) (get_config w)).
  set (e := setup_config_explicit api_key model_id aws_region use_iam_role c).
  destruct (setup_config_detect_fields (environ w) e) as (Hk & Hm & Hg & Hf).
  destruct (setup_config_explicit_fields api_key model_id aws_region
              use_iam_role c) as (Ek & Em & Eg & Ef).
  destruct (setup_config_load_fields true true fs (environ w) (get_config w))
    as (Lk & Lm & Lg & Lf).
  fold c in Lk, Lm, Lg, Lf. fold e in Ek, Em, Eg, Ef.
  simpl in Lk, Lm, Lg, Lf. clearbody e c.
  rewrite Hf, Hk, Hm, Hg, Ek, Em, Eg, Ef, Lk, Lm, Lg, Lf.
  repeat split; reflexivity.
Qed.

Lemma setup_config_environ
    (api_key model_id aws_region : option string) (use_iam_role : option bool)
    (use_dotenv use_env : bool) (fs : gmap string string) (w : World) (k : string) :
  let out := setup_config api_key model_id aws_region use_iam_role
               use_dotenv use_env fs w in
  environ out.2 !! k = publish_environ out.1 (environ w) !! k.
Proof. reflexivity. Qed.

Lemma validate_api_key (c : Config) :
  authentication_mode c = "api_key" → validate c = Returns tt.
Proof.
  intros Hm. unfold validate. rewrite Hm. simpl.
  apply authentication_mode_api_key in Hm. destruct Hm as [-> _]. reflexivity.
Qed.

Lemma authentication_mode_role (c : Config) :
  _use_iam_role c = true → authentication_mode c = "iam_role".
Proof.
  intros H. unfold authentication_mode. rewrite H, andb_false_r. reflexivity.
Qed.

(** X12: an explicit non-empty credential together with an explicit
    [use_iam_role=False] always resolves to [api_key] mode, whatever the
    environment, the file, the managed-runtime markers and the singleton
    held: the credential is the argument, it is published in
    [AWS_BEDROCK_API_KEY], and the validator accepts the result. *)
Theorem setup_config_explicit_credential
    (k : string) (model_id aws_region : option string)
    (use_dotenv use_env : bool) (fs : gmap string string) (w : World) :
  k ≠ "" →
  let out := setup_config (Some k) model_id aws_region (Some false)
               use_dotenv use_env fs w in
  _aws_bedrock_api_key out.1 = Some k
  ∧ _use_iam_role out.1 = false
  ∧ authentication_mode out.1 = "api_key"
  ∧ environ out.2 !! "AWS_BEDROCK_API_KEY" = Some k
  ∧ validate out.1 = Returns tt.
Proof.
  intros Hne. cbv zeta.
  rewrite setup_config_environ. rewrite publish_environ_lookup.
  cbn [fst snd setup_config]. unfold setup_config_result.
  set (c := setup_config_load use_dotenv use_env fs (environ w) (get_config w)).
  set (e := setup_config_explicit (Some k) model_id aws_region (Some false) c).
  destruct (setup_config_detect_fields (environ w) e) as (Hk & _ & _ & Hf).
  destruct (setup_config_explicit_fields (Some k) model_id aws_region
              (Some false) c) as (Ek & _ & _ & Ef).
  fold e in Ek, Ef. clearbody e c. simpl in Ek, Ef.
  apply truthy_true in Hne. rewrite Hne in Ek.
  rewrite Ek in Hk. rewrite Ef, Ek in Hf. simpl in Hf. rewrite Hne in Hf.
  simpl in Hf.
  assert (Hm : authentication_mode (setup_config_detect (environ w) e) = "api_key").
  { apply authentication_mode_api_key. rewrite Hk, Hf. simpl. auto. }
  rewrite Hm. simpl.
  repeat split; auto. apply validate_api_key, Hm.
Qed.

Lemma setup_config_explicit_credential_witness :
  let w := {| instance := Some (set_use_iam_role true init);
              environ := {[ "USE_IAM_ROLE" := "true";
                            "AWS_LAMBDA_FUNCTION_NAME" := "fn" ]};
              stdout := [] |} in
  authentication_mode
    (setup_config (Some "priority-test-key") None (Some "eu-west-1")
       (Some false) true true {[ ".env" := "USE_IAM_ROLE=yes" ]} w).1
  = "api_key".
Proof.
  apply (setup_config_explicit_credential "priority-test-key" None
           (Some "eu-west-1") true true {[ ".env" := "USE_IAM_ROLE=yes" ]}
           {| instance := Some (set_use_iam_role true init);
              environ := {[ "USE_IAM_ROLE" := "true";
                            "AWS_LAMBDA_FUNCTION_NAME" := "fn" ]};
              stdout := [] |}).
  discriminate.
Defined.

(** X13: a truthy [USE_IAM_ROLE] in the environment, with no explicit
    flag, resolves to [iam_role] mode whatever credential was passed, and
    the publisher then removes [AWS_BEDROCK_API_KEY] from the process
    environment. *)
Theorem setup_config_role_from_environment
    (api_key model_id aws_region : option string) (use_dotenv : bool)
    (fs : gmap string string) (w : World) (v : string) :
  environ w !! "USE_IAM_ROLE" = Some v → flag_is_true v = true →
  let out := setup_config api_key model_id aws_region None
               use_dotenv true fs w in
  _use_iam_role out.1 = true
  ∧ authentication_mode out.1 = "iam_role"
  ∧ environ out.2 !! "AWS_BEDROCK_API_KEY" = None.
Proof.
  intros Hv Ht. cbv zeta.
  rewrite setup_config_environ. rewrite publish_environ_lookup.
  cbn [fst snd setup_config]. unfold setup_config_result.
  set (c := setup_config_load use_dotenv true fs (environ w) (get_config w)).
  set (e := setup_config_explicit api_key model_id aws_region None c).
  destruct (setup_config_detect_fields (environ w) e) as (_ & _ & _ & Hf).
  destruct (setup_config_explicit_fields api_key model_id aws_region
              None c) as (_ & _ & _ & Ef).
  destruct (setup_config_load_fields use_dotenv true fs (environ w)
              (get_config w)) as (_ & _ & _ & Lf).
  fold c in Lf. fold e in Ef. clearbody e c. simpl in Ef, Lf.
  assert (He : env_flag (environ w) = Some true)
    by (unfold env_flag; rewrite Hv, Ht; reflexivity).
  rewrite He in Lf. simpl in Lf. rewrite Lf in Ef. rewrite Ef in Hf.
  simpl in Hf.
  rewrite (authentication_mode_role _ Hf). simpl. auto.
Qed.

Lemma setup_config_role_from_environment_witness :
  let w := {| instance := None;
              environ := {[ "USE_IAM_ROLE" := "Yes";
                            "AWS_BEDROCK_API_KEY" := "env-key" ]};
              stdout := [] |} in
  environ (setup_config (Some "k") None None None true true ∅ w).2
    !! "AWS_BEDROCK_API_KEY" = None.
Proof.
  apply (setup_config_role_from_environment (Some "k") None None true ∅
           {| instance := None;
              environ := {[ "USE_IAM_ROLE" := "Yes";
                            "AWS_BEDROCK_API_KEY" := "env-key" ]};
              stdout := [] |} "Yes"); reflexivity.
Defined.

(** X14: managed-runtime detection. With the environment reader on, no
    non-empty credential in the argument or in the environment and a
    non-empty marker variable, the result is in [iam_role] mode with the
    flag on and no credential variable published, whatever explicit flag
    was passed and whatever the file says. With both markers unset or
    empty, detection changes nothing. *)
Theorem setup_config_lambda_detection
    (api_key model_id aws_region : option string) (use_iam_role : option bool)
    (use_dotenv : bool) (fs : gmap string string) (w : World) :
  let out := setup_config api_key model_id aws_region use_iam_role
               use_dotenv true fs w in
  (in_lambda (environ w) = true →
   Py.opt_truthy api_key = false →
   Py.opt_truthy (environ w !! "AWS_BEDROCK_API_KEY") = false →
   _use_iam_role out.1 = true
   ∧ authentication_mode out.1 = "iam_role"
   ∧ environ out.2 !! "AWS_BEDROCK_API_KEY" = None)
  ∧ (in_lambda (environ w) = false →
     out.1 = setup_config_explicit api_key model_id aws_region use_iam_role
               (setup_config_load use_dotenv true fs (environ w)
                  (get_config w))).
Proof.
  cbv zeta. split.
  - intros Hl Ha He.
    rewrite setup_config_environ. rewrite publish_environ_lookup.
    cbn [fst snd setup_config]. unfold setup_config_result.
    set (c := setup_config_load use_dotenv true fs (environ w) (get_config w)).
    set (e := setup_config_explicit api_key model_id aws_region use_iam_role c).
    destruct (setup_config_detect_fields (environ w) e) as (_ & _ & _ & Hf).
    destruct (setup_config_explicit_fields api_key model_id aws_region
                use_iam_role c) as (Ek & _ & _ & _).
    destruct (setup_config_load_fields use_dotenv true fs (environ w)
                (get_config w)) as (Lk & _ & _ & _).
    fold c in Lk. fold e in Ek. clearbody e c. simpl in Lk.
    rewrite Ha, Lk in Ek. rewrite Ek, He, Hl in Hf. simpl in Hf.
    rewrite orb_true_r in Hf.
    rewrite (authentication_mode_role _ Hf). simpl. auto.
  - intros Hl. cbn [fst setup_config]. unfold setup_config_result.
    unfold setup_config_detect. rewrite Hl.
    destruct (_ && _); reflexivity.
Qed.

Lemma setup_config_lambda_detection_witness :
  let w := {| instance := None;
              environ := {[ "AWS_LAMBDA_FUNCTION_NAME" := "test-function";
                            "AWS_REGION" := "us-west-1" ]};
              stdout := [] |} in
  let fs : gmap string string := {[ ".env" := "AWS_BEDROCK_API_KEY=file-key" ]} in
  _use_iam_role (setup_config None None None (Some false) true true fs w).1 = true
  ∧ authentication_mode
      (setup_config None None None (Some false) true true fs w).1 = "iam_role"
  ∧ environ (setup_config None None None (Some false) true true fs w).2
      !! "AWS_BEDROCK_API_KEY" = None.
Proof.
  apply (setup_config_lambda_detection None None None (Some false) true
           {[ ".env" := "AWS_BEDROCK_API_KEY=file-key" ]}
           {| instance := None;
              environ := {[ "AWS_LAMBDA_FUNCTION_NAME" := "test-function";
                            "AWS_REGION" := "us-west-1" ]};
              stdout := [] |}); reflexivity.
Defined.

Lemma publish_environ_idempotent (c : Config) (env : gmap string string) :
  publish_environ c (publish_environ c env) = publish_environ c env.
Proof.
  apply map_eq. intros k. rewrite !publish_environ_lookup.
  repeat case_decide; try reflexivity.
  - destruct (Py.truthy (_model_id c)); reflexivity.
  - destruct (Py.truthy (_aws_region c)); reflexivity.
  - subst k. destruct (env !! "AWS_DEFAULT_REGION") as [v |]; [reflexivity |].
    destruct (Py.truthy (_aws_region c)); reflexivity.
Qed.

Lemma publish_environ_in_lambda (c : Config) (env : gmap string string) :
  in_lambda (publish_environ c env) = in_lambda env.
Proof. unfold in_lambda. rewrite !publish_environ_lookup. reflexivity. Qed.

Lemma publish_environ_in_lambda_detect (c d : Config) (env : gmap string string) :
  setup_config_detect (publish_environ c env) d = setup_config_detect env d.
Proof.
  unfold setup_config_detect. rewrite publish_environ_in_lambda. reflexivity.
Qed.

(** X15: running [setup_config] again with the same explicit arguments and
    both readers off changes neither the singleton nor the process
    environment, whatever switches the first call used: the explicit
    values are already in place, detection decides as before, and the
    publisher writes what is already there. *)
Theorem setup_config_again
    (api_key model_id aws_region : option string) (use_iam_role : option bool)
    (use_dotenv use_env : bool) (fs fs' : gmap string string) (w : World) :
  let out := setup_config api_key model_id aws_region use_iam_role
               use_dotenv use_env fs w in
  let out' := setup_config api_key model_id aws_region use_iam_role
                false false fs' out.2 in
  out'.1 = out.1
  ∧ instance out'.2 = instance out.2
  ∧ environ out'.2 = environ out.2.
Proof.
  cbv zeta.
  assert (H1 : (setup_config api_key model_id aws_region use_iam_role
                  false false fs'
                  (setup_config api_key model_id aws_region use_iam_role
                     use_dotenv use_env fs w).2).1
               = (setup_config api_key model_id aws_region use_iam_role
                    use_dotenv use_env fs w).1).
  { cbn [fst snd setup_config]. unfold setup_config_result at 1.
    unfold setup_environment, get_config at 1, setup_config_load at 1.
    cbn [environ instance].
    rewrite publish_environ_in_lambda_detect.
    unfold setup_config_result.
    set (c := setup_config_load use_dotenv use_env fs (environ w) (get_config w)).
    set (e := setup_config_explicit api_key model_id aws_region use_iam_role c).
    set (r := setup_config_detect (environ w) e).
    set (e' := setup_config_explicit api_key model_id aws_region use_iam_role r).
    destruct (setup_config_detect_fields (environ w) e') as (Hk' & Hm' & Hg' & Hf').
    destruct (setup_config_explicit_fields api_key model_id aws_region
                use_iam_role r) as (Ek' & Em' & Eg' & Ef').
    destruct (setup_config_detect_fields (environ w) e) as (Hk & Hm & Hg & Hf).
    destruct (setup_config_explicit_fields api_key model_id aws_region
                use_iam_role c) as (Ek & Em & Eg & Ef).
    fold e in Ek, Em, Eg, Ef. fold r in Hk, Hm, Hg, Hf.
    fold e' in Ek', Em', Eg', Ef'.
    clearbody e' r e c.
    apply Config_eq.
    - rewrite Hk', Ek', Hk, Ek. destruct (Py.opt_truthy api_key); reflexivity.
    - rewrite Hm', Em', Hm, Em. destruct (Py.opt_truthy model_id); reflexivity.
    - rewrite Hg', Eg', Hg, Eg. destruct (Py.opt_truthy aws_region); reflexivity.
    - rewrite Hf', Ek', Ef', Hf, Hk, Ek, Ef.
      destruct (Py.opt_truthy api_key), use_iam_role as [b |]; simpl;
        try reflexivity;
        repeat match goal with
        | |- context [_use_iam_role ?x] => destruct (_use_iam_role x)
        | |- context [in_lambda ?x] => destruct (in_lambda x)
        | |- context [Py.opt_truthy ?x] => destruct (Py.opt_truthy x)
        | |- context [orb ?b _] => is_var b; destruct b
        end; reflexivity. }
  split; [exact H1 | split].
  - cbn [snd setup_config setup_environment instance]. f_equal. exact H1.
  - change (publish_environ
              (setup_config api_key model_id aws_region use_iam_role
                 false false fs'
                 (setup_config api_key model_id aws_region use_iam_role
                    use_dotenv use_env fs w).2).1
              (publish_environ
                 (setup_config api_key model_id aws_region use_iam_role
                    use_dotenv use_env fs w).1 (environ w))
            = publish_environ
                (setup_config api_key model_id aws_region use_iam_role
                   use_dotenv use_env fs w).1 (environ w)).
    rewrite H1. apply publish_environ_idempotent.
Qed.

(** X16: once a call resolved to [iam_role] mode, the credential variable
    is gone from the environment, so a later call that reads the
    environment and passes no non-empty credential leaves the singleton
    without credential, even if the first call had one. *)
Theorem setup_config_role_drops_credential
    (api_key model_id aws_region : option string) (use_iam_role : option bool)
    (use_dotenv use_env : bool) (fs : gmap string string) (w : World)
    (api_key' model_id' aws_region' : option string)
    (use_iam_role' : option bool) (use_dotenv' : bool)
    (fs' : gmap string string) :
  let out := setup_config api_key model_id aws_region use_iam_role
               use_dotenv use_env fs w in
  authentication_mode out.1 = "iam_role" →
  Py.opt_truthy api_key' = false →
  _aws_bedrock_api_key
    (setup_config api_key' model_id' aws_region' use_iam_role'
       use_dotenv' true fs' out.2).1 = None.
Proof.
  cbv zeta. intros Hm Ha.
  cbn [fst setup_config]. unfold setup_config_result at 1.
  match goal with
  | |- _aws_bedrock_api_key (setup_config_detect ?env (setup_config_explicit _ _ _ _ ?c)) = _ =>
      destruct (setup_config_detect_fields env
                  (setup_config_explicit api_key' model_id' aws_region'
                     use_iam_role' c)) as (Hk & _);
      destruct (setup_config_explicit_fields api_key' model_id' aws_region'
                  use_iam_role' c) as (Ek & _)
  end.
  rewrite Hk, Ek, Ha.
  match goal with
  | |- _aws_bedrock_api_key (setup_config_load ?d true ?f ?env ?c) = _ =>
      destruct (setup_config_load_fields d true f env c) as (Lk & _)
  end.
  rewrite Lk. rewrite setup_config_environ, publish_environ_lookup. simpl.
  cbn [fst setup_config] in Hm. rewrite Hm. reflexivity.
Qed.

Lemma setup_config_role_drops_credential_witness :
  let w := {| instance := None;
              environ := {[ "AWS_BEDROCK_API_KEY" := "env-key";
                            "USE_IAM_ROLE" := "1" ]};
              stdout := [] |} in
  _aws_bedrock_api_key (setup_config None None None None true true ∅ w).1
    = Some "env-key"
  ∧ _aws_bedrock_api_key
      (setup_config None None None None true true ∅
         (setup_config None None None None true true ∅ w).2).1 = None.
Proof.
  split; [reflexivity |].
  apply (setup_config_role_drops_credential None None None None true true ∅
           {| instance := None;
              environ := {[ "AWS_BEDROCK_API_KEY" := "env-key";
                            "USE_IAM_ROLE" := "1" ]};
              stdout := [] |} None None None None true ∅); reflexivity.
Defined.

(** ** [ensure_configured] as a whole *)

(** X17: the contract of [ensure_configured]. When it returns, the value
    is the singleton and the validator accepts it. When it raises, the
    error is the region error, never the credential error, and the
    singleton is in [iam_role] mode with an empty region. *)
Theorem ensure_configured_outcome (fs : gmap string string) (w : World) :
  (∀ c, (ensure_configured fs w).1 = Returns c →
        instance (ensure_configured fs w).2 = Some c
        ∧ validate c = Returns tt)
  ∧ (∀ e, (ensure_configured fs w).1 = Raises e →
          e = MissingRegionError
          ∧ ∃ c, instance (ensure_configured fs w).2 = Some c
                 ∧ authentication_mode c = "iam_role" ∧ _aws_region c = "").
Proof.
  destruct (ensure_configured_instance fs w) as (c0 & Hi & Hr).
  rewrite Hr, Hi. split.
  - intros c Hc. destruct (validate c0) as [[] | e] eqn:Hv; [| discriminate].
    injection Hc as <-. auto.
  - intros e He. destruct (validate c0) as [[] | e'] eqn:Hv; [discriminate |].
    injection He as <-.
    destruct (validate_cases c0) as [H | H]; rewrite H in Hv; [discriminate |].
    injection Hv as <-. split; [reflexivity |].
    exists c0. split; [reflexivity |]. apply validate_missing_region, H.
Qed.

Lemma ensure_configured_outcome_witness :
  let fs : gmap string string := {[ ".env" := "AWS_REGION=" ]} in
  let w := {| instance := None; environ := ∅; stdout := [] |} in
  MissingRegionError = MissingRegionError
  ∧ ∃ c, instance (ensure_configured fs w).2 = Some c
         ∧ authentication_mode c = "iam_role" ∧ _aws_region c = "".
Proof.
  apply (ensure_configured_outcome {[ ".env" := "AWS_REGION=" ]}
           {| instance := None; environ := ∅; stdout := [] |}).
  reflexivity.
Defined.

Lemma ensure_configured_nonempty (fs : gmap string string) (w : World) :
  fields_nonempty (get_config w) →
  dotenv_keeps_nonempty fs ".env" →
  ∃ c, instance (ensure_configured fs w).2 = Some c ∧ fields_nonempty c.
Proof.
  intros Hw Hfile. unfold ensure_configured.
  destruct (negb (is_configured (get_config w))).
  - match goal with
    | |- context [setup_environment ?c _] => exists c
    end.
    split; [destruct (validate _); reflexivity |].
    assert (H1 : fields_nonempty
                   (load_from_env (environ w)
                      (load_from_dotenv fs ".env" (get_config w)))).
    { apply load_from_env_nonempty, load_from_dotenv_nonempty; assumption. }
    destruct (negb (is_configured _)); [| exact H1].
    destruct (in_lambda (environ w)); exact H1.
  - exists (get_config w).
    split; [destruct (validate _); reflexivity | exact Hw].
Qed.

(** X18: [ensure_configured] returns whenever the region cannot end up
    empty: if the singleton's model identifier and region are not empty on
    entry and the file's last model identifier and region are not empty
    either, the call returns a configuration, also when no credential and
    no role flag are configured anywhere (the mode is then [iam_role]). *)
Theorem ensure_configured_returns (fs : gmap string string) (w : World) :
  fields_nonempty (get_config w) →
  dotenv_keeps_nonempty fs ".env" →
  ∃ c, (ensure_configured fs w).1 = Returns c ∧ fields_nonempty c.
Proof.
  intros Hw Hfile.
  destruct (ensure_configured_nonempty fs w Hw Hfile) as (c & Hi & Hc).
  destruct (ensure_configured_instance fs w) as (c' & Hi' & Hr).
  rewrite Hi in Hi'. injection Hi' as <-.
  exists c. split; [| exact Hc]. rewrite Hr.
  destruct (validate_cases c) as [H | H]; rewrite H; [reflexivity |].
  apply validate_missing_region in H. destruct Hc as [_ Hg].
  destruct H as [_ H]. contradiction.
Qed.

Lemma ensure_configured_returns_witness :
  ∃ c, (ensure_configured ∅ {| instance := None; environ := ∅; stdout := [] |}).1
       = Returns c ∧ fields_nonempty c.
Proof.
  apply (ensure_configured_returns ∅
           {| instance := None; environ := ∅; stdout := [] |}).
  - split; discriminate.
  - split; discriminate.
Defined.

Lemma ensure_configured_skip (fs : gmap string string) (w : World) :
  is_configured (get_config w) = true →
  ensure_configured fs w =
    (match validate (get_config w) with
     | Raises e => Raises e
     | Returns _ => Returns (get_config w)
     end, w).
Proof.
  intros Hc. unfold ensure_configured. rewrite Hc. simpl.
  destruct w as [[c |] env out]; unfold get_config in *; simpl in *.
  - destruct (validate c); reflexivity.
  - vm_compute in Hc. discriminate.
Qed.

(** X19: inside a managed runtime [setup_config] always leaves a
    configured singleton, so an [ensure_configured] that follows reads
    nothing and publishes nothing: it hands back the validator's verdict
    on the configuration [setup_config] returned and leaves the process as
    it is, whatever the file holds by then. *)
Theorem setup_config_then_ensure_configured
    (api_key model_id aws_region : option string) (use_iam_role : option bool)
    (use_dotenv use_env : bool) (fs fs' : gmap string string) (w : World) :
  in_lambda (environ w) = true →
  let out := setup_config api_key model_id aws_region use_iam_role
               use_dotenv use_env fs w in
  is_configured out.1 = true
  ∧ ensure_configured fs' out.2 =
      (match validate out.1 with
       | Raises e => Raises e
       | Returns _ => Returns out.1
       end, out.2).
Proof.
  intros Hl. cbv zeta.
  assert (Hc : is_configured
                 (setup_config api_key model_id aws_region use_iam_role
                    use_dotenv use_env fs w).1 = true).
  { cbn [fst setup_config]. unfold setup_config_result.
    match goal with
    | |- is_configured (setup_config_detect _ ?e) = _ =>
        destruct (setup_config_detect_fields (environ w) e) as (Hk & _ & _ & Hf);
        generalize dependent (setup_config_detect (environ w) e);
        generalize e
    end.
    intros e r Hk Hf. unfold is_configured. rewrite Hf, Hk, Hl.
    destruct (_aws_bedrock_api_key e) as [k |]; simpl.
    - reflexivity.
    - apply orb_true_r. }
  split; [exact Hc |].
  apply ensure_configured_skip. exact Hc.
Qed.

Lemma setup_config_then_ensure_configured_witness :
  let w := {| instance := None;
              environ := {[ "AWS_EXECUTION_ENV" := "AWS_Lambda_python3.12" ]};
              stdout := [] |} in
  let out := setup_config None None None None true true ∅ w in
  is_configured out.1 = true
  ∧ ensure_configured {[ ".env" := "AWS_REGION=" ]} out.2
    = (match validate out.1 with
       | Raises e => Raises e
       | Returns _ => Returns out.1
       end, out.2).
Proof.
  exact (setup_config_then_ensure_configured None None None None true true ∅
           {[ ".env" := "AWS_REGION=" ]}
           {| instance := None;
              environ := {[ "AWS_EXECUTION_ENV" := "AWS_Lambda_python3.12" ]};
              stdout := [] |} eq_refl).
Defined.

(** X20: on a singleton that is not configured, [ensure_configured] does
    to the process what [setup_config] with default arguments does, and
    then validates, provided the environment does not hold an empty
    credential variable (the two detections test the credential
    differently: [is not None] here, truthiness there). *)
Theorem ensure_configured_is_setup_config (fs : gmap string string) (w : World) :
  is_configured (get_config w) = false →
  environ w !! "AWS_BEDROCK_API_KEY" ≠ Some "" →
  let out := setup_config None None None None true true fs w in
  ensure_configured fs w =
    (match validate out.1 with
     | Raises e => Raises e
     | Returns _ => Returns out.1
     end, out.2).
Proof.
  intros Hc He. cbv zeta. unfold ensure_configured. rewrite Hc.
  cbn [negb fst snd setup_config]. unfold setup_config_result.
  cbn [setup_config_explicit setup_config_load].
  set (c1 := load_from_env (environ w)
               (load_from_dotenv fs ".env" (get_config w))).
  assert (Hd : (if negb (is_configured c1)
                then if in_lambda (environ w)
                     then set_use_iam_role true c1 else c1
                else c1) = setup_config_detect (environ w) c1).
  { unfold setup_config_detect, is_configured.
    destruct (load_from_env_fields (environ w)
                (load_from_dotenv fs ".env" (get_config w))) as (Hk & _).
    fold c1 in Hk. rewrite Hk.
    destruct (environ w !! "AWS_BEDROCK_API_KEY") as [k |] eqn:E; simpl.
    - assert (Hne : k ≠ "") by congruence.
      apply truthy_true in Hne. rewrite Hne. reflexivity.
    - destruct (_use_iam_role c1); reflexivity. }
  rewrite Hd. destruct (validate _); reflexivity.
Qed.

Lemma ensure_configured_is_setup_config_witness :
  let fs : gmap string string := {[ ".env" := "AWS_REGION=eu-west-1" ]} in
  let w := {| instance := None;
              environ := {[ "AWS_LAMBDA_FUNCTION_NAME" := "fn" ]};
              stdout := [] |} in
  let out := setup_config None None None None true true fs w in
  ensure_configured fs w =
    (match validate out.1 with
     | Raises e => Raises e
     | Returns _ => Returns out.1
     end, out.2).
Proof.
  apply (ensure_configured_is_setup_config
           {[ ".env" := "AWS_REGION=eu-west-1" ]}
           {| instance := None;
              environ := {[ "AWS_LAMBDA_FUNCTION_NAME" := "fn" ]};
              stdout := [] |}); [reflexivity | discriminate].
Defined.

(** X21: credentials from the environment alone. On a fresh process
    without a dotenv file, a non-empty [AWS_BEDROCK_API_KEY] and no truthy
    [USE_IAM_ROLE] in the environment, [setup_config] without explicit
    credential and flag resolves to [api_key] mode with the environment's
    credential, inside a managed runtime too, and publishes that
    credential unchanged. *)
Theorem setup_config_from_environment
    (model_id aws_region : option string) (fs : gmap string string)
    (w : World) (k : string) :
  instance w = None → fs !! ".env" = None →
  environ w !! "AWS_BEDROCK_API_KEY" = Some k → k ≠ "" →
  env_flag (environ w) = None →
  let out := setup_config None model_id aws_region None true true fs w in
  _aws_bedrock_api_key out.1 = Some k
  ∧ _use_iam_role out.1 = false
  ∧ authentication_mode out.1 = "api_key"
  ∧ environ out.2 !! "AWS_BEDROCK_API_KEY" = Some k.
Proof.
  intros Hi Hfs Hk Hne Hfl. cbv zeta.
  rewrite setup_config_environ, publish_environ_lookup.
  cbn [fst snd setup_config]. unfold setup_config_result.
  set (c := setup_config_load true true fs (environ w) (get_config w)).
  set (e := setup_config_explicit None model_id aws_region None c).
  destruct (setup_config_detect_fields (environ w) e) as (Dk & _ & _ & Df).
  destruct (setup_config_explicit_fields None model_id aws_region None c)
    as (Ek & _ & _ & Ef).
  destruct (setup_config_load_fields true true fs (environ w) (get_config w))
    as (Lk & _ & _ & Lf).
  fold c in Lk, Lf. fold e in Ek, Ef. clearbody e c.
  simpl in Ek, Ef, Lk, Lf.
  unfold dotenv_file_lines in Lf. rewrite Hfs, Hfl in Lf. simpl in Lf.
  unfold get_config in Lf. rewrite Hi in Lf. simpl in Lf.
  rewrite Lk, Hk in Ek. rewrite Lf in Ef.
  apply truthy_true in Hne.
  rewrite Ek in Dk. rewrite Ef, Ek in Df. simpl in Df. rewrite Hne in Df.
  simpl in Df.
  assert (Hm : authentication_mode (setup_config_detect (environ w) e) = "api_key").
  { apply authentication_mode_api_key. rewrite Dk, Df. simpl. auto. }
  rewrite Hm. simpl. auto.
Qed.

Lemma setup_config_from_environment_witness :
  let w := {| instance := None;
              environ := {[ "AWS_BEDROCK_API_KEY" := "env-test-key";
                            "AWS_REGION" := "ap-northeast-1";
                            "AWS_BEDROCK_MODEL_ID" := "test-model-id";
                            "AWS_LAMBDA_FUNCTION_NAME" := "fn" ]};
              stdout := [] |} in
  authentication_mode (setup_config None None None None true true ∅ w).1
  = "api_key".
Proof.
  apply (setup_config_from_environment None None ∅
           {| instance := None;
              environ := {[ "AWS_BEDROCK_API_KEY" := "env-test-key";
                            "AWS_REGION" := "ap-northeast-1";
                            "AWS_BEDROCK_MODEL_ID" := "test-model-id";
                            "AWS_LAMBDA_FUNCTION_NAME" := "fn" ]};
              stdout := [] |} "env-test-key");
    first [reflexivity | discriminate].
Defined.
